(** * LandLeaf: the terminal node of the land-allocation tree

    A shallow embedding of [land_allocator/source/land_leaf.cpp] and the
    properties of it that the land-allocation specification relies on.

    Conventions of the embedding.
    - A C++ [double] is an exact rational ([Q]): the arithmetic proved about
      is the arithmetic the doubles approximate.  Rounding, infinities and
      NaN are not represented.  The C++ comparisons [==], [<=], [<], [>]
      become [Qeq_bool], [Qle_bool] and their negations.  Where NaN
      matters, in the profit rate, the operations are embedded a second
      time over binary64 numbers (module [Binary64]).
    - A C++ [int] (periods, years) is a [Z].
    - A per-period array is a [list Q] with one slot per period; indexing it
      outside its size is undefined in C++ and is the outcome [OutOfBounds].
    - [exit( -1 )] is the outcome [Exits], a failed [assert] in a build
      that checks assertions is the outcome [AssertFails].
    - The collaborators the leaf calls but does not implement (marketplace,
      carbon calculator, discrete choice function, model time, parent node)
      are interfaces; what the leaf asks of them is recorded, in order, in
      a list of events. *)

From Stdlib Require Import ZArith QArith Qminmax Lia Lqa Floats.
From stdpp Require Import base option list strings.

Local Open Scope string_scope.
Local Open Scope list_scope.
Local Open Scope Z_scope.

(** ** Numbers *)

Abbreviation double := Q (only parsing).

(** [a < b] on doubles. *)
Definition Qlt_bool (a b : double) : bool := negb (Qle_bool b a).

(** [std::max( a, b )] is [( a < b ) ? b : a]. *)
Definition std_max (a b : double) : double := if Qlt_bool a b then b else a.

(** ** Per-period arrays *)

Definition at_period (v : list double) (p : Z) : option double :=
  if p <? 0 then None else v !! Z.to_nat p.

Definition set_period (v : list double) (p : Z) (x : double) : option (list double) :=
  if (0 <=? p) && (p <? Z.of_nat (length v)) then Some (<[Z.to_nat p := x]> v) else None.

(** ** Collaborators *)

(** [Modeltime]: the number of periods and the period/year conversions. *)
Record Modeltime := {
  getmaxper : Z;
  getper_to_yr : Z → Z;
  getyr_to_per : Z → Z
}.

(** What is global to a run: [scenario->getModeltime()],
    [CarbonModelUtils::getEndYear()] and whether the build was compiled
    with [NDEBUG] (assertions removed). *)
Record Scenario := {
  modeltime : Modeltime;
  getEndYear : Z;
  NDEBUG : bool
}.

(** [Marketplace]: the two calls the leaf makes, and the sentinel price. *)
Class Marketplace (MK : Type) := {
  NO_MARKET_PRICE : double;
  getPrice : MK → string → string → Z → bool → double;
  addToDemand : MK → string → string → double → double → Z → bool → double * MK
}.

(** [ICarbonCalc]: the carbon content calculator a leaf owns. *)
Class ICarbonCalc (CC : Type) := {
  calc : CC → Z → Z → CC;
  getNetLandUseChangeEmission : CC → Z → double;
  getActualAboveGroundCarbonDensity : CC → Z → double;
  getActualBelowGroundCarbonDensity : CC → Z → double;
  getAboveGroundCarbonSubsidyDiscountFactor : CC → double;
  getBelowGroundCarbonSubsidyDiscountFactor : CC → double;
  setTotalLandUse : CC → double → Z → CC;
  setSoilTimeScale : CC → Z → CC
}.

(** [IDiscreteChoice]: the choice function of the node above, passed to the
    leaf as [aChoiceFnAbove]. *)
Record IDiscreteChoice := {
  calcUnnormalizedShare : double → double → Z → double;
  calcImpliedCost : double → double → Z → double;
  calcShareWeight : double → double → Z → double
}.

(** The part of the parent item a leaf calls through [getParent()]. *)
Record ALandAllocatorItem := {
  parentCalibrationProfitForNewTech : Z → double
}.

(** The land types asked for by [getCalLandAllocation]; [eUnmanaged] is
    the type that is neither of the two the leaf answers for. *)
Inductive LandAllocationType := eAnyLand | eManaged | eUnmanaged.

(** ** Events: the log and the calls made on collaborators *)

Inductive WarningLevel := WARNING | ERROR.

(** What is streamed into a log message with [<<]. *)
Inductive Piece :=
| Str (s : string)
| Int (z : Z).

Inductive Event :=
| EvLog (level : WarningLevel) (message : list Piece)
| EvAddToDemand (market region : string) (value lastValue : double)
    (period : Z) (flag : bool)
| EvUnnormalizedShare (scaler profit : double) (period : Z)
| EvImpliedCost (share profitAbove : double) (period : Z)
| EvShareWeight (share profit : double) (period : Z).

Definition isSubmission (market : string) (e : Event) : bool :=
  match e with
  | EvAddToDemand m _ _ _ _ _ => bool_decide (m = market)
  | _ => false
  end.

(** How many demand submissions to [market] a list of events holds. *)
Definition submissions (market : string) (evs : list Event) : nat :=
  length (List.filter (isSubmission market) evs).

(** ** Outcomes of a call *)

Inductive Outcome (S A : Type) :=
| Returns (a : A) (s : S)
| Exits (code : Z) (s : S)
| AssertFails (s : S)
| OutOfBounds.

Arguments Returns {S A} a s.
Arguments Exits {S A} code s.
Arguments AssertFails {S A} s.
Arguments OutOfBounds {S A}.

(** ** The leaf *)

Section Leaf.

Context {CC MK : Type} `{!ICarbonCalc CC} `{!Marketplace MK}.

(** The data members of [LandLeaf] (with those it inherits from
    [ALandAllocatorItem]) that the per-period operations read or write.
    The carbon calculator is owned by the leaf; [completeInit] has run, so
    it is present. *)
Record LandLeaf := {
  mName : string;
  mParent : ALandAllocatorItem;
  mLandAllocation : list double;
  mReadinLandAllocation : list double;
  mShare : list double;
  mProfitRate : list double;
  mProfitScaler : list double;
  mCalibrationProfitRate : list double;
  mCarbonPriceIncreaseRate : list double;
  mCarbonContentCalc : CC;
  mMinAboveGroundCDensity : double;
  mMinBelowGroundCDensity : double;
  mSocialDiscountRate : double;
  mIsNewTech : bool;
  mGhostShareNumeratorForLeaf : double;
  mNewTechStartYear : Z;
  mIsLandExpansionCost : bool;
  mLandExpansionCostName : string;
  mLastCalcCO2Value : double;
  mLastCalcExpansionValue : double
}.

(** Assignment to one data member. *)

Definition set_mLandAllocation (x : list double) (l : LandLeaf) : LandLeaf :=
  {| mName := mName l;
     mParent := mParent l;
     mLandAllocation := x;
     mReadinLandAllocation := mReadinLandAllocation l;
     mShare := mShare l;
     mProfitRate := mProfitRate l;
     mProfitScaler := mProfitScaler l;
     mCalibrationProfitRate := mCalibrationProfitRate l;
     mCarbonPriceIncreaseRate := mCarbonPriceIncreaseRate l;
     mCarbonContentCalc := mCarbonContentCalc l;
     mMinAboveGroundCDensity := mMinAboveGroundCDensity l;
     mMinBelowGroundCDensity := mMinBelowGroundCDensity l;
     mSocialDiscountRate := mSocialDiscountRate l;
     mIsNewTech := mIsNewTech l;
     mGhostShareNumeratorForLeaf := mGhostShareNumeratorForLeaf l;
     mNewTechStartYear := mNewTechStartYear l;
     mIsLandExpansionCost := mIsLandExpansionCost l;
     mLandExpansionCostName := mLandExpansionCostName l;
     mLastCalcCO2Value := mLastCalcCO2Value l;
     mLastCalcExpansionValue := mLastCalcExpansionValue l |}.

Definition set_mShare (x : list double) (l : LandLeaf) : LandLeaf :=
  {| mName := mName l;
     mParent := mParent l;
     mLandAllocation := mLandAllocation l;
     mReadinLandAllocation := mReadinLandAllocation l;
     mShare := x;
     mProfitRate := mProfitRate l;
     mProfitScaler := mProfitScaler l;
     mCalibrationProfitRate := mCalibrationProfitRate l;
     mCarbonPriceIncreaseRate := mCarbonPriceIncreaseRate l;
     mCarbonContentCalc := mCarbonContentCalc l;
     mMinAboveGroundCDensity := mMinAboveGroundCDensity l;
     mMinBelowGroundCDensity := mMinBelowGroundCDensity l;
     mSocialDiscountRate := mSocialDiscountRate l;
     mIsNewTech := mIsNewTech l;
     mGhostShareNumeratorForLeaf := mGhostShareNumeratorForLeaf l;
     mNewTechStartYear := mNewTechStartYear l;
     mIsLandExpansionCost := mIsLandExpansionCost l;
     mLandExpansionCostName := mLandExpansionCostName l;
     mLastCalcCO2Value := mLastCalcCO2Value l;
     mLastCalcExpansionValue := mLastCalcExpansionValue l |}.

Definition set_mProfitRate (x : list double) (l : LandLeaf) : LandLeaf :=
  {| mName := mName l;
     mParent := mParent l;
     mLandAllocation := mLandAllocation l;
     mReadinLandAllocation := mReadinLandAllocation l;
     mShare := mShare l;
     mProfitRate := x;
     mProfitScaler := mProfitScaler l;
     mCalibrationProfitRate := mCalibrationProfitRate l;
     mCarbonPriceIncreaseRate := mCarbonPriceIncreaseRate l;
     mCarbonContentCalc := mCarbonContentCalc l;
     mMinAboveGroundCDensity := mMinAboveGroundCDensity l;
     mMinBelowGroundCDensity := mMinBelowGroundCDensity l;
     mSocialDiscountRate := mSocialDiscountRate l;
     mIsNewTech := mIsNewTech l;
     mGhostShareNumeratorForLeaf := mGhostShareNumeratorForLeaf l;
     mNewTechStartYear := mNewTechStartYear l;
     mIsLandExpansionCost := mIsLandExpansionCost l;
     mLandExpansionCostName := mLandExpansionCostName l;
     mLastCalcCO2Value := mLastCalcCO2Value l;
     mLastCalcExpansionValue := mLastCalcExpansionValue l |}.

Definition set_mProfitScaler (x : list double) (l : LandLeaf) : LandLeaf :=
  {| mName := mName l;
     mParent := mParent l;
     mLandAllocation := mLandAllocation l;
     mReadinLandAllocation := mReadinLandAllocation l;
     mShare := mShare l;
     mProfitRate := mProfitRate l;
     mProfitScaler := x;
     mCalibrationProfitRate := mCalibrationProfitRate l;
     mCarbonPriceIncreaseRate := mCarbonPriceIncreaseRate l;
     mCarbonContentCalc := mCarbonContentCalc l;
     mMinAboveGroundCDensity := mMinAboveGroundCDensity l;
     mMinBelowGroundCDensity := mMinBelowGroundCDensity l;
     mSocialDiscountRate := mSocialDiscountRate l;
     mIsNewTech := mIsNewTech l;
     mGhostShareNumeratorForLeaf := mGhostShareNumeratorForLeaf l;
     mNewTechStartYear := mNewTechStartYear l;
     mIsLandExpansionCost := mIsLandExpansionCost l;
     mLandExpansionCostName := mLandExpansionCostName l;
     mLastCalcCO2Value := mLastCalcCO2Value l;
     mLastCalcExpansionValue := mLastCalcExpansionValue l |}.

Definition set_mCalibrationProfitRate (x : list double) (l : LandLeaf) : LandLeaf :=
  {| mName := mName l;
     mParent := mParent l;
     mLandAllocation := mLandAllocation l;
     mReadinLandAllocation := mReadinLandAllocation l;
     mShare := mShare l;
     mProfitRate := mProfitRate l;
     mProfitScaler := mProfitScaler l;
     mCalibrationProfitRate := x;
     mCarbonPriceIncreaseRate := mCarbonPriceIncreaseRate l;
     mCarbonContentCalc := mCarbonContentCalc l;
     mMinAboveGroundCDensity := mMinAboveGroundCDensity l;
     mMinBelowGroundCDensity := mMinBelowGroundCDensity l;
     mSocialDiscountRate := mSocialDiscountRate l;
     mIsNewTech := mIsNewTech l;
     mGhostShareNumeratorForLeaf := mGhostShareNumeratorForLeaf l;
     mNewTechStartYear := mNewTechStartYear l;
     mIsLandExpansionCost := mIsLandExpansionCost l;
     mLandExpansionCostName := mLandExpansionCostName l;
     mLastCalcCO2Value := mLastCalcCO2Value l;
     mLastCalcExpansionValue := mLastCalcExpansionValue l |}.

Definition set_mCarbonPriceIncreaseRate (x : list double) (l : LandLeaf) : LandLeaf :=
  {| mName := mName l;
     mParent := mParent l;
     mLandAllocation := mLandAllocation l;
     mReadinLandAllocation := mReadinLandAllocation l;
     mShare := mShare l;
     mProfitRate := mProfitRate l;
     mProfitScaler := mProfitScaler l;
     mCalibrationProfitRate := mCalibrationProfitRate l;
     mCarbonPriceIncreaseRate := x;
     mCarbonContentCalc := mCarbonContentCalc l;
     mMinAboveGroundCDensity := mMinAboveGroundCDensity l;
     mMinBelowGroundCDensity := mMinBelowGroundCDensity l;
     mSocialDiscountRate := mSocialDiscountRate l;
     mIsNewTech := mIsNewTech l;
     mGhostShareNumeratorForLeaf := mGhostShareNumeratorForLeaf l;
     mNewTechStartYear := mNewTechStartYear l;
     mIsLandExpansionCost := mIsLandExpansionCost l;
     mLandExpansionCostName := mLandExpansionCostName l;
     mLastCalcCO2Value := mLastCalcCO2Value l;
     mLastCalcExpansionValue := mLastCalcExpansionValue l |}.

Definition set_mCarbonContentCalc (x : CC) (l : LandLeaf) : LandLeaf :=
  {| mName := mName l;
     mParent := mParent l;
     mLandAllocation := mLandAllocation l;
     mReadinLandAllocation := mReadinLandAllocation l;
     mShare := mShare l;
     mProfitRate := mProfitRate l;
     mProfitScaler := mProfitScaler l;
     mCalibrationProfitRate := mCalibrationProfitRate l;
     mCarbonPriceIncreaseRate := mCarbonPriceIncreaseRate l;
     mCarbonContentCalc := x;
     mMinAboveGroundCDensity := mMinAboveGroundCDensity l;
     mMinBelowGroundCDensity := mMinBelowGroundCDensity l;
     mSocialDiscountRate := mSocialDiscountRate l;
     mIsNewTech := mIsNewTech l;
     mGhostShareNumeratorForLeaf := mGhostShareNumeratorForLeaf l;
     mNewTechStartYear := mNewTechStartYear l;
     mIsLandExpansionCost := mIsLandExpansionCost l;
     mLandExpansionCostName := mLandExpansionCostName l;
     mLastCalcCO2Value := mLastCalcCO2Value l;
     mLastCalcExpansionValue := mLastCalcExpansionValue l |}.

Definition set_mLastCalcCO2Value (x : double) (l : LandLeaf) : LandLeaf :=
  {| mName := mName l;
     mParent := mParent l;
     mLandAllocation := mLandAllocation l;
     mReadinLandAllocation := mReadinLandAllocation l;
     mShare := mShare l;
     mProfitRate := mProfitRate l;
     mProfitScaler := mProfitScaler l;
     mCalibrationProfitRate := mCalibrationProfitRate l;
     mCarbonPriceIncreaseRate := mCarbonPriceIncreaseRate l;
     mCarbonContentCalc := mCarbonContentCalc l;
     mMinAboveGroundCDensity := mMinAboveGroundCDensity l;
     mMinBelowGroundCDensity := mMinBelowGroundCDensity l;
     mSocialDiscountRate := mSocialDiscountRate l;
     mIsNewTech := mIsNewTech l;
     mGhostShareNumeratorForLeaf := mGhostShareNumeratorForLeaf l;
     mNewTechStartYear := mNewTechStartYear l;
     mIsLandExpansionCost := mIsLandExpansionCost l;
     mLandExpansionCostName := mLandExpansionCostName l;
     mLastCalcCO2Value := x;
     mLastCalcExpansionValue := mLastCalcExpansionValue l |}.

Definition set_mLastCalcExpansionValue (x : double) (l : LandLeaf) : LandLeaf :=
  {| mName := mName l;
     mParent := mParent l;
     mLandAllocation := mLandAllocation l;
     mReadinLandAllocation := mReadinLandAllocation l;
     mShare := mShare l;
     mProfitRate := mProfitRate l;
     mProfitScaler := mProfitScaler l;
     mCalibrationProfitRate := mCalibrationProfitRate l;
     mCarbonPriceIncreaseRate := mCarbonPriceIncreaseRate l;
     mCarbonContentCalc := mCarbonContentCalc l;
     mMinAboveGroundCDensity := mMinAboveGroundCDensity l;
     mMinBelowGroundCDensity := mMinBelowGroundCDensity l;
     mSocialDiscountRate := mSocialDiscountRate l;
     mIsNewTech := mIsNewTech l;
     mGhostShareNumeratorForLeaf := mGhostShareNumeratorForLeaf l;
     mNewTechStartYear := mNewTechStartYear l;
     mIsLandExpansionCost := mIsLandExpansionCost l;
     mLandExpansionCostName := mLandExpansionCostName l;
     mLastCalcCO2Value := mLastCalcCO2Value l;
     mLastCalcExpansionValue := x |}.

(** ** State and the monad of leaf operations *)

(** The leaf, the marketplace it is coupled to, and what has been logged
    and asked of collaborators so far (oldest first). *)
Record State := {
  leaf : LandLeaf;
  marketplace : MK;
  events : list Event
}.

Context (scenario : Scenario).

Definition M (A : Type) : Type := State → Outcome State A.

#[global] Instance M_ret : MRet M := λ A a s, Returns a s.

#[global] Instance M_bind : MBind M := λ A B k m s,
  match m s with
  | Returns a s' => k a s'
  | Exits code s' => Exits code s'
  | AssertFails s' => AssertFails s'
  | OutOfBounds => OutOfBounds
  end.

Definition theLeaf : M LandLeaf := λ s, Returns (leaf s) s.

Definition modifyLeaf (f : LandLeaf → LandLeaf) : M unit := λ s,
  Returns tt {| leaf := f (leaf s); marketplace := marketplace s; events := events s |}.

Definition emit (e : Event) : M unit := λ s,
  Returns tt {| leaf := leaf s; marketplace := marketplace s; events := events s ++ [e] |}.

(** [v[ p ]] as a value. *)
Definition read (v : LandLeaf → list double) (p : Z) : M double := λ s,
  match at_period (v (leaf s)) p with
  | Some x => Returns x s
  | None => OutOfBounds
  end.

(** [v[ p ] = x]. *)
Definition write (v : LandLeaf → list double)
    (set_v : list double → LandLeaf → LandLeaf) (p : Z) (x : double) : M unit := λ s,
  match set_period (v (leaf s)) p x with
  | Some v' => modifyLeaf (set_v v') s
  | None => OutOfBounds
  end.

(** [exit( code )]. *)
Definition exit {A : Type} (code : Z) : M A := λ s, Exits code s.

(** [assert( c )]: nothing at all, not even the evaluation of [c], under
    [NDEBUG]. *)
Definition assert (c : M bool) : M unit :=
  if NDEBUG scenario then mret tt
  else b ← c; if b : bool then mret tt else λ s, AssertFails s.

Definition log (level : WarningLevel) (message : list Piece) : M unit :=
  emit (EvLog level message).

Definition marketGetPrice (good region : string) (period : Z) (mustExist : bool)
    : M double := λ s,
  Returns (getPrice (marketplace s) good region period mustExist) s.

Definition marketAddToDemand (good region : string) (value lastValue : double)
    (period : Z) (flag : bool) : M double := λ s,
  let r := addToDemand (marketplace s) good region value lastValue period flag in
  Returns r.1
    {| leaf := leaf s; marketplace := r.2;
       events := events s ++ [EvAddToDemand good region value lastValue period flag] |}.

Definition choiceUnnormalizedShare (fn : IDiscreteChoice)
    (scaler profit : double) (p : Z) : M double :=
  emit (EvUnnormalizedShare scaler profit p);;
  mret (calcUnnormalizedShare fn scaler profit p).

Definition choiceImpliedCost (fn : IDiscreteChoice)
    (share profitAbove : double) (p : Z) : M double :=
  emit (EvImpliedCost share profitAbove p);;
  mret (calcImpliedCost fn share profitAbove p).

Definition choiceShareWeight (fn : IDiscreteChoice)
    (share profit : double) (p : Z) : M double :=
  emit (EvShareWeight share profit p);;
  mret (calcShareWeight fn share profit p).

(** ** The operations of [LandLeaf] *)

Definition getNumChildren : M Z := mret 0.

(** Leaves have no children: [assert( false ); return 0;], the null
    pointer being [None]. *)
Definition getChildAt (aIndex : Z) : M (option LandLeaf) :=
  assert (mret false);; mret None.

Definition initCalc (aRegionName : string) (aPeriod : Z) : M unit :=
  (if 1 <? aPeriod then
     scaler ← read mProfitScaler aPeriod;
     (if Qeq_bool scaler (-1) then
        previous ← read mProfitScaler (aPeriod - 1);
        write mProfitScaler set_mProfitScaler aPeriod previous
      else mret tt);;
     share ← read mShare aPeriod;
     (if Qeq_bool share (-1) then
        previous ← read mShare (aPeriod - 1);
        write mShare set_mShare aPeriod previous
      else mret tt)
   else mret tt);;
  scaler ← read mProfitScaler aPeriod;
  if Qeq_bool scaler (-1) then
    log ERROR [Str "Negative share weight in period "; Int aPeriod;
               Str " for region "; Str aRegionName];;
    exit (-1)
  else mret tt.

Definition setInitShares (aRegionName : string) (aLandAllocationAbove : double)
    (aPeriod : Z) : M double :=
  (if Qlt_bool 0 aLandAllocationAbove then
     readin ← read mReadinLandAllocation aPeriod;
     write mShare set_mShare aPeriod (readin / aLandAllocationAbove)
   else write mShare set_mShare aPeriod 0);;
  share ← read mShare aPeriod;
  profit ← read mProfitRate aPeriod;
  mret (share * profit)%Q.

Definition dollar_conversion_75_90 : double := 2.212.

Definition conversionFactor : double := 1000000.0.

Definition getCarbonSubsidy (aRegionName : string) (aPeriod : Z) : M double :=
  carbonPrice ← marketGetPrice "CO2_LUC" aRegionName aPeriod false;
  if negb (Qeq_bool carbonPrice NO_MARKET_PRICE) && Qlt_bool 0 carbonPrice then
    let carbonPrice := (carbonPrice / dollar_conversion_75_90)%Q in
    l ← theLeaf;
    let year := getper_to_yr (modeltime scenario) aPeriod in
    let incrementalAboveCDensity :=
      (getActualAboveGroundCarbonDensity (mCarbonContentCalc l) year
       - mMinAboveGroundCDensity l)%Q in
    let incrementalBelowCDensity :=
      (getActualBelowGroundCarbonDensity (mCarbonContentCalc l) year
       - mMinBelowGroundCDensity l)%Q in
    increaseRate ← read mCarbonPriceIncreaseRate aPeriod;
    let carbonSubsidy :=
      ((incrementalAboveCDensity
          * getAboveGroundCarbonSubsidyDiscountFactor (mCarbonContentCalc l)
        + incrementalBelowCDensity
          * getBelowGroundCarbonSubsidyDiscountFactor (mCarbonContentCalc l))
       * carbonPrice * (mSocialDiscountRate l - increaseRate)
       * conversionFactor)%Q in
    assert (mret (Qle_bool 0 carbonSubsidy));;
    mret carbonSubsidy
  else mret 0%Q.

Definition setProfitRate (aRegionName aProductName : string)
    (aProfitRate : double) (aPeriod : Z) : M unit :=
  l ← theLeaf;
  adjustedProfitRate ←
    (if mIsLandExpansionCost l then
       expansionCost ← marketGetPrice (mLandExpansionCostName l) aRegionName aPeriod true;
       mret (aProfitRate - expansionCost)%Q
     else mret aProfitRate);
  subsidy ← getCarbonSubsidy aRegionName aPeriod;
  write mProfitRate set_mProfitRate aPeriod (std_max (adjustedProfitRate + subsidy) 0).

(** Does nothing for production (managed) leaves. *)
Definition setUnmanagedLandProfitRate (aRegionName : string)
    (aAverageProfitRate : double) (aPeriod : Z) : M unit := mret tt.

Definition calculateCalibrationProfitRate (aRegionName : string)
    (aAverageProfitRateAbove : double) (aChoiceFnAbove : IDiscreteChoice)
    (aPeriod : Z) : M unit :=
  l ← theLeaf;
  if negb (mIsNewTech l) then
    share ← read mShare aPeriod;
    cost ← choiceImpliedCost aChoiceFnAbove share aAverageProfitRateAbove aPeriod;
    write mCalibrationProfitRate set_mCalibrationProfitRate aPeriod cost
  else mret tt.

Definition setCarbonPriceIncreaseRate (aCarbonPriceIncreaseRate : double)
    (aPeriod : Z) : M unit :=
  write mCarbonPriceIncreaseRate set_mCarbonPriceIncreaseRate aPeriod
    aCarbonPriceIncreaseRate.

Definition leafSetSoilTimeScale (aTimeScale : Z) : M unit :=
  modifyLeaf (λ l,
    set_mCarbonContentCalc (setSoilTimeScale (mCarbonContentCalc l) aTimeScale) l).

Definition calcLandShares (aRegionName : string)
    (aChoiceFnAbove : IDiscreteChoice) (aPeriod : Z) : M double :=
  profit ← read mProfitRate aPeriod;
  scaler ← (if Qle_bool profit 0 then mret 0%Q else read mProfitScaler aPeriod);
  profit ← read mProfitRate aPeriod;
  unnormalizedShare ← choiceUnnormalizedShare aChoiceFnAbove scaler profit aPeriod;
  mret unnormalizedShare.

Definition calculateProfitScalers (aRegionName : string)
    (aChoiceFnAbove : IDiscreteChoice) (aPeriod : Z) : M unit :=
  l ← theLeaf;
  (if mIsNewTech l then
     write mCalibrationProfitRate set_mCalibrationProfitRate aPeriod
       (parentCalibrationProfitForNewTech (mParent l) aPeriod);;
     calibrationProfit ← read mCalibrationProfitRate aPeriod;
     newTechProfitScaler ←
       choiceShareWeight aChoiceFnAbove (mGhostShareNumeratorForLeaf l)
         calibrationProfit aPeriod;
     write mProfitScaler set_mProfitScaler aPeriod 0;;
     write mProfitScaler set_mProfitScaler
       (getyr_to_per (modeltime scenario) (mNewTechStartYear l)) newTechProfitScaler
   else
     calibrationProfit ← read mCalibrationProfitRate aPeriod;
     degenerate ←
       (if Qeq_bool calibrationProfit 0 then mret true
        else profit ← read mProfitRate aPeriod; mret (Qeq_bool profit 0));
     if degenerate : bool then write mProfitScaler set_mProfitScaler aPeriod 0
     else
       share ← read mShare aPeriod;
       profit ← read mProfitRate aPeriod;
       weight ← choiceShareWeight aChoiceFnAbove share profit aPeriod;
       write mProfitScaler set_mProfitScaler aPeriod weight);;
  scaler ← read mProfitScaler aPeriod;
  if Qlt_bool scaler 0 then
    log WARNING
      [Str "CalPrice too low resulting in negative share profit scaler. Setting scaler to zero";
       Str aRegionName; Str " "; Str (mName l)];;
    write mProfitScaler set_mProfitScaler aPeriod 0
  else mret tt.

Definition calcLandAllocation (aRegionName : string)
    (aLandAllocationAbove : double) (aPeriod : Z) : M unit :=
  assert (share ← read mShare aPeriod;
          mret (Qle_bool 0 share && Qle_bool share 1));;
  (if Qlt_bool 0 aLandAllocationAbove then
     share ← read mShare aPeriod;
     write mLandAllocation set_mLandAllocation aPeriod (aLandAllocationAbove * share)
   else write mLandAllocation set_mLandAllocation aPeriod 0);;
  landAllocation ← read mLandAllocation aPeriod;
  modifyLeaf (λ l,
    set_mCarbonContentCalc
      (setTotalLandUse (mCarbonContentCalc l) landAllocation aPeriod) l);;
  l ← theLeaf;
  if mIsLandExpansionCost l then
    value ← marketAddToDemand (mLandExpansionCostName l) aRegionName
              landAllocation (mLastCalcExpansionValue l) aPeriod true;
    modifyLeaf (set_mLastCalcExpansionValue value)
  else mret tt.

Definition calcLUCEmissions (aRegionName : string) (aPeriod aEndYear : Z) : M unit :=
  modifyLeaf (λ l,
    set_mCarbonContentCalc (calc (mCarbonContentCalc l) aPeriod aEndYear) l);;
  if negb (aEndYear =? getEndYear scenario)
     || (aPeriod =? getmaxper (modeltime scenario) - 1) then
    l ← theLeaf;
    let LUCEmissions :=
      getNetLandUseChangeEmission (mCarbonContentCalc l)
        (getper_to_yr (modeltime scenario) aPeriod) in
    value ← marketAddToDemand "CO2_LUC" aRegionName LUCEmissions
              (mLastCalcCO2Value l) aPeriod false;
    modifyLeaf (set_mLastCalcCO2Value value)
  else mret tt.

Definition getLandAllocation (aProductName : string) (aPeriod : Z) : M double :=
  assert (l ← theLeaf;
          mret (bool_decide (aProductName = mName l)
                || bool_decide (aProductName = "")));;
  read mLandAllocation aPeriod.

Definition getCalLandAllocation (aType : LandAllocationType) (aPeriod : Z) : M double :=
  match aType with
  | eAnyLand | eManaged => read mReadinLandAllocation aPeriod
  | eUnmanaged => mret 0%Q
  end.

(** Does nothing for leaves. *)
Definition getCalibrationProfitForNewTech (aPeriod : Z) : M double := mret 0%Q.

(** This shouldn't do anything for land leafs. *)
Definition adjustProfitScalers (aRegionName : string) (aPeriod : Z) : M unit :=
  mret tt.

Definition isUnmanagedLandLeaf : M bool := mret false.

Definition getProfitForChildWithHighestShare (aPeriod : Z) : M double :=
  read mProfitRate aPeriod.

(** ** The per-period interface as data *)

(** One call of the land allocator on the leaf. *)
Inductive Call :=
| InitCalc (aRegionName : string) (aPeriod : Z)
| SetInitShares (aRegionName : string) (aLandAllocationAbove : double) (aPeriod : Z)
| SetProfitRate (aRegionName aProductName : string) (aProfitRate : double) (aPeriod : Z)
| SetUnmanagedLandProfitRate (aRegionName : string) (aAverageProfitRate : double)
    (aPeriod : Z)
| CalculateCalibrationProfitRate (aRegionName : string)
    (aAverageProfitRateAbove : double) (aChoiceFnAbove : IDiscreteChoice) (aPeriod : Z)
| SetCarbonPriceIncreaseRate (aCarbonPriceIncreaseRate : double) (aPeriod : Z)
| SetSoilTimeScale (aTimeScale : Z)
| CalcLandShares (aRegionName : string) (aChoiceFnAbove : IDiscreteChoice) (aPeriod : Z)
| CalculateProfitScalers (aRegionName : string) (aChoiceFnAbove : IDiscreteChoice)
    (aPeriod : Z)
| CalcLandAllocation (aRegionName : string) (aLandAllocationAbove : double) (aPeriod : Z)
| CalcLUCEmissions (aRegionName : string) (aPeriod aEndYear : Z)
| AdjustProfitScalers (aRegionName : string) (aPeriod : Z)
| GetCarbonSubsidy (aRegionName : string) (aPeriod : Z)
| GetLandAllocation (aProductName : string) (aPeriod : Z)
| GetCalLandAllocation (aType : LandAllocationType) (aPeriod : Z)
| GetProfitForChildWithHighestShare (aPeriod : Z).

Definition ignore {A : Type} (m : M A) : M unit := m;; mret tt.

Definition perform (c : Call) : M unit :=
  match c with
  | InitCalc r p => initCalc r p
  | SetInitShares r a p => ignore (setInitShares r a p)
  | SetProfitRate r n x p => setProfitRate r n x p
  | SetUnmanagedLandProfitRate r x p => setUnmanagedLandProfitRate r x p
  | CalculateCalibrationProfitRate r x fn p => calculateCalibrationProfitRate r x fn p
  | SetCarbonPriceIncreaseRate x p => setCarbonPriceIncreaseRate x p
  | SetSoilTimeScale t => leafSetSoilTimeScale t
  | CalcLandShares r fn p => ignore (calcLandShares r fn p)
  | CalculateProfitScalers r fn p => calculateProfitScalers r fn p
  | CalcLandAllocation r a p => calcLandAllocation r a p
  | CalcLUCEmissions r p y => calcLUCEmissions r p y
  | AdjustProfitScalers r p => adjustProfitScalers r p
  | GetCarbonSubsidy r p => ignore (getCarbonSubsidy r p)
  | GetLandAllocation n p => ignore (getLandAllocation n p)
  | GetCalLandAllocation t p => ignore (getCalLandAllocation t p)
  | GetProfitForChildWithHighestShare p => ignore (getProfitForChildWithHighestShare p)
  end.

(** A sequence of calls, stopping at the first that does not return. *)
Fixpoint performAll (cs : list Call) : M unit :=
  match cs with
  | [] => mret tt
  | c :: cs' => perform c;; performAll cs'
  end.

End Leaf.

Arguments LandLeaf : clear implicits.
Arguments State : clear implicits.
Arguments M : clear implicits.

(** ** The profit rate in IEEE 754 doubles

    Exact rationals cannot tell what the leaf does with a NaN or an
    infinity.  The two operations that compute the profit rate,
    [setProfitRate] and the [getCarbonSubsidy] it calls, are therefore
    embedded a second time, over binary64 numbers ([float]), whose
    operations are those of a C++ [double] evaluated in double precision:
    [+], [-], [*] and [/] round to nearest and propagate NaN, [<], [<=] and
    [==] are false when an operand is NaN, and [!=] is true. *)

#[local] Set Warnings "-inexact-float".

Module Binary64.

(** [std::max( a, b )] is [( a < b ) ? b : a]. *)
Definition std_max (a b : float) : float := if (a <? b)%float then b else a.

Definition at_period (v : list float) (p : Z) : option float :=
  if p <? 0 then None else v !! Z.to_nat p.

Definition set_period (v : list float) (p : Z) (x : float) : option (list float) :=
  if (0 <=? p) && (p <? Z.of_nat (length v)) then Some (<[Z.to_nat p := x]> v) else None.

(** [Marketplace]: the call the two operations make, and the sentinel
    price. *)
Class Marketplace (MK : Type) := {
  NO_MARKET_PRICE : float;
  getPrice : MK → string → string → Z → bool → float
}.

(** [ICarbonCalc]: what [getCarbonSubsidy] asks of the carbon calculator. *)
Class ICarbonCalc (CC : Type) := {
  getActualAboveGroundCarbonDensity : CC → Z → float;
  getActualBelowGroundCarbonDensity : CC → Z → float;
  getAboveGroundCarbonSubsidyDiscountFactor : CC → float;
  getBelowGroundCarbonSubsidyDiscountFactor : CC → float
}.

Section Leaf.

Context {CC MK : Type} `{!ICarbonCalc CC} `{!Marketplace MK}.

(** The data members of [LandLeaf] that [setProfitRate] and
    [getCarbonSubsidy] read or write. *)
Record LandLeaf := {
  mProfitRate : list float;
  mCarbonPriceIncreaseRate : list float;
  mCarbonContentCalc : CC;
  mMinAboveGroundCDensity : float;
  mMinBelowGroundCDensity : float;
  mSocialDiscountRate : float;
  mIsLandExpansionCost : bool;
  mLandExpansionCostName : string
}.

Definition set_mProfitRate (x : list float) (l : LandLeaf) : LandLeaf :=
  {| mProfitRate := x;
     mCarbonPriceIncreaseRate := mCarbonPriceIncreaseRate l;
     mCarbonContentCalc := mCarbonContentCalc l;
     mMinAboveGroundCDensity := mMinAboveGroundCDensity l;
     mMinBelowGroundCDensity := mMinBelowGroundCDensity l;
     mSocialDiscountRate := mSocialDiscountRate l;
     mIsLandExpansionCost := mIsLandExpansionCost l;
     mLandExpansionCostName := mLandExpansionCostName l |}.

(** The leaf and the marketplace whose prices it reads. *)
Record State := {
  leaf : LandLeaf;
  marketplace : MK
}.

Context (scenario : Scenario).

Definition dollar_conversion_75_90 : float := 2.212.

Definition conversionFactor : float := 1000000.0.

Definition getCarbonSubsidy (aRegionName : string) (aPeriod : Z) (s : State)
    : Outcome State float :=
  let l := leaf s in
  let carbonPrice := getPrice (marketplace s) "CO2_LUC" aRegionName aPeriod false in
  if negb (carbonPrice =? NO_MARKET_PRICE)%float && (0 <? carbonPrice)%float then
    let carbonPrice := (carbonPrice / dollar_conversion_75_90)%float in
    let year := getper_to_yr (modeltime scenario) aPeriod in
    let incrementalAboveCDensity :=
      (getActualAboveGroundCarbonDensity (mCarbonContentCalc l) year
       - mMinAboveGroundCDensity l)%float in
    let incrementalBelowCDensity :=
      (getActualBelowGroundCarbonDensity (mCarbonContentCalc l) year
       - mMinBelowGroundCDensity l)%float in
    match at_period (mCarbonPriceIncreaseRate l) aPeriod with
    | None => OutOfBounds
    | Some increaseRate =>
        let carbonSubsidy :=
          ((incrementalAboveCDensity
              * getAboveGroundCarbonSubsidyDiscountFactor (mCarbonContentCalc l)
            + incrementalBelowCDensity
              * getBelowGroundCarbonSubsidyDiscountFactor (mCarbonContentCalc l))
           * carbonPrice * (mSocialDiscountRate l - increaseRate)
           * conversionFactor)%float in
        if NDEBUG scenario || (0 <=? carbonSubsidy)%float
        then Returns carbonSubsidy s
        else AssertFails s
    end
  else Returns 0%float s.

Definition setProfitRate (aRegionName aProductName : string)
    (aProfitRate : float) (aPeriod : Z) (s : State) : Outcome State unit :=
  let l := leaf s in
  let adjustedProfitRate :=
    if mIsLandExpansionCost l then
      let expansionCost :=
        getPrice (marketplace s) (mLandExpansionCostName l) aRegionName aPeriod true in
      (aProfitRate - expansionCost)%float
    else aProfitRate in
  match getCarbonSubsidy aRegionName aPeriod s with
  | Returns subsidy s =>
      match set_period (mProfitRate (leaf s)) aPeriod
              (std_max (adjustedProfitRate + subsidy)%float 0) with
      | Some v =>
          Returns tt {| leaf := set_mProfitRate v (leaf s);
                        marketplace := marketplace s |}
      | None => OutOfBounds
      end
  | Exits code s => Exits code s
  | AssertFails s => AssertFails s
  | OutOfBounds => OutOfBounds
  end.

End Leaf.

Arguments LandLeaf : clear implicits.
Arguments State : clear implicits.

(** [p] indexes a slot of [v]. *)
Definition in_range (v : list float) (p : Z) : Prop :=
  0 ≤ p < Z.of_nat (length v).

(** No profit rate of the leaf is below 0. *)
Definition noneBelowZero {CC : Type} (l : LandLeaf CC) : Prop :=
  ∀ p x, at_period (mProfitRate l) p = Some x → (x <? 0)%float = false.

End Binary64.

(** ** Initialisation of a leaf

    Before [completeInit] the carbon calculator of a leaf may be missing
    (a null pointer), and so may its land-use history. *)

(** What is streamed into the log while a leaf is initialised. *)
Inductive Streamed :=
| Text (s : string)
| Value (x : double).

(** What [completeInit] does outside the leaf: its log entries, and the
    dependency it adds to the marketplace's dependency finder. *)
Inductive InitEvent :=
| InitLog (level : WarningLevel) (message : list Streamed)
| AddDependency (aDependent aDependentRegion aInput aInputRegion : string).

(** [IInfo]: the region's parameters. *)
Record IInfo := {
  getDouble : string → bool → double
}.

(** What initialisation asks of the carbon calculator: the default
    calculator [new LandCarbonDensities], [completeInit] and
    [initLandUseHistory]; [LUH] is the land-use history. *)
Class ICarbonCalcInit (CC LUH : Type) := {
  newLandCarbonDensities : CC;
  carbonCompleteInit : CC → double → CC;
  carbonInitLandUseHistory : CC → LUH → CC
}.

Section CompleteInit.

Context {CC LUH : Type} `{!ICarbonCalcInit CC LUH}.
Context (scenario : Scenario).

(** A leaf as [XMLParse] leaves it. *)
Record ParsedLeaf := {
  members : LandLeaf (option CC);
  mLandUseHistory : option LUH
}.

(** The loop of [completeInit] over the periods: the first negative land
    allocation read in is logged and the run exits. *)
Fixpoint checkLandAllocation (aRegionName name : string) (v : list double)
    (periods : list Z) : Outcome (list InitEvent) unit :=
  match periods with
  | [] => Returns tt []
  | period :: later =>
      match at_period v period with
      | None => OutOfBounds
      | Some x =>
          if Qlt_bool x 0 then
            Exits (-1)
              [InitLog ERROR
                 [Text "Negative land allocation of "; Value x;
                  Text " read in for leaf "; Text name; Text " in ";
                  Text aRegionName; Text "."]]
          else checkLandAllocation aRegionName name v later
      end
  end.

Definition initLandUseHistory (aRegionName name : string) (cc : CC)
    (history : option LUH) : Outcome (list InitEvent) CC :=
  match history with
  | None =>
      Exits (-1)
        [InitLog ERROR
           [Text "No land use history read in for leaf "; Text name;
            Text " in region "; Text aRegionName]]
  | Some h => Returns (carbonInitLandUseHistory cc h) []
  end.

(** [completeInit]; its [assert( mCarbonContentCalc.get() )] comes after
    the calculator has been set and cannot fail. *)
Definition completeInit (aRegionName : string) (aRegionInfo : IInfo)
    (parsed : ParsedLeaf) : Outcome (list InitEvent) (LandLeaf CC) :=
  let l := members parsed in
  let socialDiscountRate := getDouble aRegionInfo "social-discount-rate" true in
  let privateDiscountRateLand :=
    getDouble aRegionInfo "private-discount-rate-land" true in
  let cc :=
    match mCarbonContentCalc l with
    | Some cc => cc
    | None => newLandCarbonDensities
    end in
  let cc := carbonCompleteInit cc privateDiscountRateLand in
  match checkLandAllocation aRegionName (mName l) (mLandAllocation l)
          (seqZ 0 (getmaxper (modeltime scenario))) with
  | Returns _ _ =>
      match initLandUseHistory aRegionName (mName l) cc (mLandUseHistory parsed) with
      | Returns cc _ =>
          Returns
            {| mName := mName l;
               mParent := mParent l;
               mLandAllocation := mLandAllocation l;
               mReadinLandAllocation := mReadinLandAllocation l;
               mShare := mShare l;
               mProfitRate := mProfitRate l;
               mProfitScaler := mProfitScaler l;
               mCalibrationProfitRate := mCalibrationProfitRate l;
               mCarbonPriceIncreaseRate := mCarbonPriceIncreaseRate l;
               mCarbonContentCalc := cc;
               mMinAboveGroundCDensity := mMinAboveGroundCDensity l;
               mMinBelowGroundCDensity := mMinBelowGroundCDensity l;
               mSocialDiscountRate := socialDiscountRate;
               mIsNewTech := mIsNewTech l;
               mGhostShareNumeratorForLeaf := mGhostShareNumeratorForLeaf l;
               mNewTechStartYear := mNewTechStartYear l;
               mIsLandExpansionCost := mIsLandExpansionCost l;
               mLandExpansionCostName := mLandExpansionCostName l;
               mLastCalcCO2Value := mLastCalcCO2Value l;
               mLastCalcExpansionValue := mLastCalcExpansionValue l |}
            (if mIsLandExpansionCost l
             then [AddDependency "land-allocator" aRegionName
                     (mLandExpansionCostName l) aRegionName]
             else [])
      | Exits code evs => Exits code evs
      | AssertFails evs => AssertFails evs
      | OutOfBounds => OutOfBounds
      end
  | Exits code evs => Exits code evs
  | AssertFails evs => AssertFails evs
  | OutOfBounds => OutOfBounds
  end.

End CompleteInit.

Arguments ParsedLeaf : clear implicits.

(** ** Ordering sectors by dependency

    [sector::DependencyOrdering] of [Sector.h], the comparison handed to
    the sort of a region's sectors.  Of a sector it reads the name and the
    lists of its simultaneities and of its inputs. *)

Record sector := {
  getName : string;
  getSimulList : list string;
  getInputList : list string
}.

Section DependencyOrdering.

(** [std::binary_search] over a vector of names. *)
Context (binary_search : list string → string → bool).

Definition DependencyOrdering (lhs rhs : sector) : bool :=
  let simulList := getSimulList lhs in
  let inputList := getInputList lhs in
  if binary_search simulList (getName rhs) then
    String.ltb (getName lhs) (getName rhs)
  else if binary_search inputList (getName rhs) then false
  else String.ltb (getName lhs) (getName rhs).

End DependencyOrdering.

(** ** Concrete collaborators

    The leaf's source fixes none of its collaborators.  The ones below are
    small instances of the interfaces on which the operations above can be
    run. *)

(** Modelled from the spec: the marketplace ([marketplace/include/marketplace.h]
    and its source are not part of the leaf's source).  [getPrice] answers
    the price of a market, or [NO_MARKET_PRICE] when there is no such market;
    [addToDemand] adjusts the running total demand of (market, period) by
    the new value less the previous contribution and answers the value to
    hand back at the next call.  The numeric value of the sentinel is not
    given; a large number stands for it. *)
Record TableMarket := {
  prices : string → string → Z → option Q;
  demands : string → Z → Q
}.

#[global] Instance TableMarket_Marketplace : Marketplace TableMarket := {
  NO_MARKET_PRICE := 1000000.0;
  getPrice mk good region period mustExist :=
    default 1000000.0%Q (prices mk good region period);
  addToDemand mk good region value lastValue period flag :=
    (value,
     {| prices := prices mk;
        demands := λ g p,
          if bool_decide (g = good ∧ p = period)
          then (demands mk g p + (value - lastValue))%Q
          else demands mk g p |})
}.

(** A carbon calculator with the same densities, discount factors and net
    emission in every year, which remembers the land use it was last given. *)
Record FixedCarbon := {
  aboveDensity : Q;
  belowDensity : Q;
  aboveFactor : Q;
  belowFactor : Q;
  netEmission : Q;
  landUse : Q
}.

#[global] Instance FixedCarbon_ICarbonCalc : ICarbonCalc FixedCarbon := {
  calc cc period endYear := cc;
  getNetLandUseChangeEmission cc year := netEmission cc;
  getActualAboveGroundCarbonDensity cc year := aboveDensity cc;
  getActualBelowGroundCarbonDensity cc year := belowDensity cc;
  getAboveGroundCarbonSubsidyDiscountFactor cc := aboveFactor cc;
  getBelowGroundCarbonSubsidyDiscountFactor cc := belowFactor cc;
  setTotalLandUse cc land period :=
    {| aboveDensity := aboveDensity cc; belowDensity := belowDensity cc;
       aboveFactor := aboveFactor cc; belowFactor := belowFactor cc;
       netEmission := netEmission cc; landUse := land |};
  setSoilTimeScale cc timeScale := cc
}.

(** A choice function whose weight is the scaler times the profit rate, with
    the two inverses that go with it. *)
Definition linearChoice : IDiscreteChoice := {|
  calcUnnormalizedShare scaler profit period := (scaler * profit)%Q;
  calcImpliedCost share profitAbove period := (share * profitAbove)%Q;
  calcShareWeight share profit period := (share / profit)%Q
|}.

(** Nine periods of fifteen years, 1975 to 2095. *)
Definition fifteenYearSteps : Modeltime := {|
  getmaxper := 9;
  getper_to_yr p := 1975 + 15 * p;
  getyr_to_per y := (y - 1975) / 15
|}.

(** A checked build ... *)
Definition debugRun : Scenario :=
  {| modeltime := fifteenYearSteps; getEndYear := 2095; NDEBUG := false |}.

(** ... and one compiled with [NDEBUG]. *)
Definition releaseRun : Scenario :=
  {| modeltime := fifteenYearSteps; getEndYear := 2095; NDEBUG := true |}.

Definition forest : FixedCarbon :=
  {| aboveDensity := 5; belowDensity := 8; aboveFactor := 1; belowFactor := 1;
     netEmission := 12; landUse := 0 |}.


Definition nodeAbove : ALandAllocatorItem :=
  {| parentCalibrationProfitForNewTech p := 10%Q |}.

(** A calibrated leaf: half of its parent's land, scalers set in the first
    two periods and still to be copied forward after them. *)
Definition cropLeaf : LandLeaf FixedCarbon := {|
  mName := "Corn";
  mParent := nodeAbove;
  mLandAllocation := [100; 100; 0; 0; 0; 0; 0; 0; 0]%Q;
  mReadinLandAllocation := [100; 100; 0; 0; 0; 0; 0; 0; 0]%Q;
  mShare := [0.5; 0.5; -1; -1; -1; -1; -1; -1; -1]%Q;
  mProfitRate := [10; 12; 0; 0; 0; 0; 0; 0; 0]%Q;
  mProfitScaler := [2; 2; -1; -1; -1; -1; -1; -1; -1]%Q;
  mCalibrationProfitRate := [5; 6; 0; 0; 0; 0; 0; 0; 0]%Q;
  mCarbonPriceIncreaseRate := [0; 0; 0; 0; 0; 0; 0; 0; 0]%Q;
  mCarbonContentCalc := forest;
  mMinAboveGroundCDensity := 1;
  mMinBelowGroundCDensity := 2;
  mSocialDiscountRate := 0.05;
  mIsNewTech := false;
  mGhostShareNumeratorForLeaf := 0.25;
  mNewTechStartYear := 2020;
  mIsLandExpansionCost := false;
  mLandExpansionCostName := "";
  mLastCalcCO2Value := 0;
  mLastCalcExpansionValue := 0
|}.

(** An entrant starting in 2020 (period 3) that has not been calibrated. *)
Definition entrantLeaf (ghostShare : Q) : LandLeaf FixedCarbon := {|
  mName := "Biomass";
  mParent := nodeAbove;
  mLandAllocation := [0; 0; 0; 0; 0; 0; 0; 0; 0]%Q;
  mReadinLandAllocation := [0; 0; 0; 0; 0; 0; 0; 0; 0]%Q;
  mShare := [0; 0; -1; -1; -1; -1; -1; -1; -1]%Q;
  mProfitRate := [0; 0; 0; 0; 0; 0; 0; 0; 0]%Q;
  mProfitScaler := [-1; -1; -1; -1; -1; -1; -1; -1; -1]%Q;
  mCalibrationProfitRate := [0; 0; 0; 0; 0; 0; 0; 0; 0]%Q;
  mCarbonPriceIncreaseRate := [0; 0; 0; 0; 0; 0; 0; 0; 0]%Q;
  mCarbonContentCalc := forest;
  mMinAboveGroundCDensity := 1;
  mMinBelowGroundCDensity := 2;
  mSocialDiscountRate := 0.05;
  mIsNewTech := true;
  mGhostShareNumeratorForLeaf := ghostShare;
  mNewTechStartYear := 2020;
  mIsLandExpansionCost := false;
  mLandExpansionCostName := "";
  mLastCalcCO2Value := 0;
  mLastCalcExpansionValue := 0
|}.

Definition noMarkets : TableMarket :=
  {| prices := λ good region period, None; demands := λ good period, 0%Q |}.

(** A marketplace whose only market is CO2_LUC for the USA, at [price] in
    every period. *)
Definition carbonMarket (price : Q) : TableMarket :=
  {| prices := λ good region period,
       if bool_decide (good = "CO2_LUC" ∧ region = "USA") then Some price
       else None;
     demands := λ good period, 0%Q |}.

Definition start (l : LandLeaf FixedCarbon) (mk : TableMarket)
    : State FixedCarbon TableMarket :=
  {| leaf := l; marketplace := mk; events := [] |}.

(** The calibrated leaf with a land-expansion-cost market. *)
Definition constrainedLeaf : LandLeaf FixedCarbon := {|
  mName := "Corn";
  mParent := nodeAbove;
  mLandAllocation := [100; 100; 0; 0; 0; 0; 0; 0; 0]%Q;
  mReadinLandAllocation := [100; 100; 0; 0; 0; 0; 0; 0; 0]%Q;
  mShare := [0.5; 0.5; -1; -1; -1; -1; -1; -1; -1]%Q;
  mProfitRate := [10; 12; 0; 0; 0; 0; 0; 0; 0]%Q;
  mProfitScaler := [2; 2; -1; -1; -1; -1; -1; -1; -1]%Q;
  mCalibrationProfitRate := [5; 6; 0; 0; 0; 0; 0; 0; 0]%Q;
  mCarbonPriceIncreaseRate := [0; 0; 0; 0; 0; 0; 0; 0; 0]%Q;
  mCarbonContentCalc := forest;
  mMinAboveGroundCDensity := 1;
  mMinBelowGroundCDensity := 2;
  mSocialDiscountRate := 0.05;
  mIsNewTech := false;
  mGhostShareNumeratorForLeaf := 0.25;
  mNewTechStartYear := 2020;
  mIsLandExpansionCost := true;
  mLandExpansionCostName := "CornLand";
  mLastCalcCO2Value := 0;
  mLastCalcExpansionValue := 0
|}.

(** The land-use history of the fixed calculator is the land use it starts
    from; its initialisation with a discount rate changes nothing. *)
#[global] Instance FixedCarbon_ICarbonCalcInit : ICarbonCalcInit FixedCarbon Q := {
  newLandCarbonDensities :=
    {| aboveDensity := 0; belowDensity := 0; aboveFactor := 1; belowFactor := 1;
       netEmission := 0; landUse := 0 |};
  carbonCompleteInit cc privateDiscountRateLand := cc;
  carbonInitLandUseHistory cc history :=
    {| aboveDensity := aboveDensity cc; belowDensity := belowDensity cc;
       aboveFactor := aboveFactor cc; belowFactor := belowFactor cc;
       netEmission := netEmission cc; landUse := history |}
}.

Definition usaInfo : IInfo :=
  {| getDouble name mustExist :=
       if bool_decide (name = "social-discount-rate") then 0.05%Q else 0.1%Q |}.

(** A leaf as parsed: the land allocation [allocation] read in, no carbon
    calculator, and the land-use history [history]. *)
Definition parsedLeaf (allocation : list Q) (history : option Q)
    : ParsedLeaf FixedCarbon Q := {|
  members := {|
    mName := "Corn";
    mParent := nodeAbove;
    mLandAllocation := allocation;
    mReadinLandAllocation := allocation;
    mShare := [-1; -1; -1; -1; -1; -1; -1; -1; -1]%Q;
    mProfitRate := [0; 0; 0; 0; 0; 0; 0; 0; 0]%Q;
    mProfitScaler := [-1; -1; -1; -1; -1; -1; -1; -1; -1]%Q;
    mCalibrationProfitRate := [0; 0; 0; 0; 0; 0; 0; 0; 0]%Q;
    mCarbonPriceIncreaseRate := [0; 0; 0; 0; 0; 0; 0; 0; 0]%Q;
    mCarbonContentCalc := None;
    mMinAboveGroundCDensity := 0;
    mMinBelowGroundCDensity := 0;
    mSocialDiscountRate := 0;
    mIsNewTech := false;
    mGhostShareNumeratorForLeaf := 0.25;
    mNewTechStartYear := 2020;
    mIsLandExpansionCost := true;
    mLandExpansionCostName := "CornLand";
    mLastCalcCO2Value := 0;
    mLastCalcExpansionValue := 0
  |};
  mLandUseHistory := history
|}.

(** What [std::binary_search] answers on a sorted vector of names: whether
    the name is in it. *)
Definition searchSorted (names : list string) (name : string) : bool :=
  bool_decide (name ∈ names).

Definition biomassSector : sector :=
  {| getName := "biomass"; getSimulList := []; getInputList := ["refining"] |}.

Definition electricitySector : sector :=
  {| getName := "electricity"; getSimulList := []; getInputList := [] |}.

Definition refiningSector : sector :=
  {| getName := "refining"; getSimulList := []; getInputList := [] |}.




(** The collaborators of the profit rate over binary64 numbers.
    Modelled from the spec, as the marketplace above: [getPrice] answers
    the price of a market, the same in every region and period, or
    [NO_MARKET_PRICE] when there is no such market; a large number stands
    for the sentinel.  The carbon calculator has the same densities and
    discount factors in every year. *)
Record PriceList := {
  priceOf : string → option float
}.

#[global] Instance PriceList_Marketplace : Binary64.Marketplace PriceList := {
  Binary64.NO_MARKET_PRICE := 1000000.0%float;
  Binary64.getPrice mk good region period mustExist :=
    default 1000000.0%float (priceOf mk good)
}.

Record FixedDensities := {
  densityAbove : float;
  densityBelow : float;
  factorAbove : float;
  factorBelow : float
}.

#[global] Instance FixedDensities_ICarbonCalc : Binary64.ICarbonCalc FixedDensities := {
  Binary64.getActualAboveGroundCarbonDensity cc year := densityAbove cc;
  Binary64.getActualBelowGroundCarbonDensity cc year := densityBelow cc;
  Binary64.getAboveGroundCarbonSubsidyDiscountFactor cc := factorAbove cc;
  Binary64.getBelowGroundCarbonSubsidyDiscountFactor cc := factorBelow cc
}.

(** The calibrated leaf in binary64 numbers, with a land-expansion-cost
    market or without. *)
Definition cropLeaf64 (constrained : bool) : Binary64.LandLeaf FixedDensities := {|
  Binary64.mProfitRate := [10; 12; 0; 0; 0; 0; 0; 0; 0]%float;
  Binary64.mCarbonPriceIncreaseRate := [0; 0; 0; 0; 0; 0; 0; 0; 0]%float;
  Binary64.mCarbonContentCalc :=
    {| densityAbove := 5; densityBelow := 8; factorAbove := 1; factorBelow := 1 |};
  Binary64.mMinAboveGroundCDensity := 1;
  Binary64.mMinBelowGroundCDensity := 2;
  Binary64.mSocialDiscountRate := 0.05;
  Binary64.mIsLandExpansionCost := constrained;
  Binary64.mLandExpansionCostName := "CornLand"
|}.

(** A marketplace with the land-expansion-cost market of the leaf at
    [cost] and no carbon market. *)
Definition landMarket (cost : float) : PriceList :=
  {| priceOf good := if bool_decide (good = "CornLand") then Some cost else None |}.

(** * Vocabulary of the properties *)

(** [p] indexes a slot of [v]. *)
Definition in_range (v : list double) (p : Z) : Prop :=
  0 ≤ p < Z.of_nat (length v).

(** The state a call leaves behind, however it ends. *)
Definition finalState {S A : Type} (o : Outcome S A) : option S :=
  match o with
  | Returns _ s | Exits _ s | AssertFails s => Some s
  | OutOfBounds => None
  end.

Section Vocabulary.

Context {CC MK : Type}.

(** [m] leaves every state it is started in related by [R] to the state it
    ends in. *)
Definition keeps (R : relation (State CC MK)) {A : Type} (m : M CC MK A) : Prop :=
  ∀ s s', finalState (m s) = Some s' → R s s'.

(** The data member [f] of the leaf is the same in both states. *)
Definition sameField {T : Type} (f : LandLeaf CC → T) : relation (State CC MK) :=
  λ s s', f (leaf s') = f (leaf s).

(** The period of the leaf's [new-tech-start-year]. *)
Definition newTechStartPeriod (scenario : Scenario) (l : LandLeaf CC) : Z :=
  getyr_to_per (modeltime scenario) (mNewTechStartYear l).

(** Before period [start] every profit scaler is 0 or still the
    sentinel -1. *)
Definition unsetOrZeroBefore (start : Z) (l : LandLeaf CC) : Prop :=
  ∀ q x, q < start → at_period (mProfitScaler l) q = Some x →
         (x == 0 ∨ x == -1)%Q.

(** The calls of the calibration pass and of forward projection. *)
Definition writesProfitScaler (c : Call) : bool :=
  match c with
  | InitCalc _ _ | CalculateProfitScalers _ _ _ => true
  | _ => false
  end.

Definition writesProfitRate (c : Call) : bool :=
  match c with
  | SetProfitRate _ _ _ _ => true
  | _ => false
  end.

End Vocabulary.

Section MoreVocabulary.

Context {CC MK : Type}.

(** The invariant of the data model: no land allocation is negative. *)
Definition nonnegLandAllocation (l : LandLeaf CC) : Prop :=
  ∀ p x, at_period (mLandAllocation l) p = Some x → (0 <= x)%Q.

(** The sizes of the per-period arrays of a leaf. *)
Definition sizes (l : LandLeaf CC) : list nat :=
  [length (mLandAllocation l); length (mReadinLandAllocation l);
   length (mShare l); length (mProfitRate l); length (mProfitScaler l);
   length (mCalibrationProfitRate l); length (mCarbonPriceIncreaseRate l)].

(** What is read in or configured for a leaf and never computed. *)
Definition configuration (l : LandLeaf CC) :=
  (mName l, mParent l, mReadinLandAllocation l, mMinAboveGroundCDensity l,
   mMinBelowGroundCDensity l, mSocialDiscountRate l, mIsNewTech l,
   mGhostShareNumeratorForLeaf l, mNewTechStartYear l, mIsLandExpansionCost l,
   mLandExpansionCostName l).

(** The call that computes the land allocation. *)
Definition writesLandAllocation (c : Call) : bool :=
  match c with
  | CalcLandAllocation _ _ _ => true
  | _ => false
  end.

(** What [calcLandAllocation] stores: the parent's allocation times the
    share when the parent's allocation is positive, 0 otherwise. *)
Definition allocated (above share : Q) : Q :=
  if Qlt_bool 0 above then (above * share)%Q else 0%Q.

(** [initCalc] in [count] successive periods, the first being [from]. *)
Fixpoint initCalcs (aRegionName : string) (from : Z) (count : nat) : list Call :=
  match count with
  | O => []
  | S count' => InitCalc aRegionName from :: initCalcs aRegionName (from + 1) count'
  end.

End MoreVocabulary.

(** Every one of [periods] has a land allocation in [v], and none of these
    is negative. *)
Definition allocationsRead (v : list double) (periods : list Z) : Prop :=
  ∀ q, q ∈ periods → ∃ y, at_period v q = Some y ∧ (0 <= y)%Q.

(** * Properties *)

(** ** Per-period arrays *)

Lemma at_period_in_range v p x : at_period v p = Some x → in_range v p.
Proof.
  unfold at_period, in_range. destruct (Z.ltb_spec p 0) as [|Hp]; [done|].
  intros Hx%lookup_lt_Some. lia.
Qed.

Lemma in_range_at_period v p : in_range v p → ∃ x, at_period v p = Some x.
Proof.
  unfold at_period, in_range. intros [Hp Hlt].
  destruct (Z.ltb_spec p 0); [lia|].
  apply lookup_lt_is_Some. lia.
Qed.

Lemma set_period_in_range v p x :
  in_range v p → set_period v p x = Some (<[Z.to_nat p := x]> v).
Proof.
  unfold set_period, in_range. intros [Hp Hlt].
  destruct (Z.leb_spec 0 p); [|lia]. destruct (Z.ltb_spec p (Z.of_nat (length v))); [done|lia].
Qed.

Lemma set_period_Some v p x v' :
  set_period v p x = Some v' → in_range v p ∧ v' = <[Z.to_nat p := x]> v.
Proof.
  unfold set_period, in_range.
  destruct (Z.leb_spec 0 p); [|done].
  destruct (Z.ltb_spec p (Z.of_nat (length v))); [|done].
  intros [= <-]. done.
Qed.

Lemma at_period_insert_eq v p x :
  in_range v p → at_period (<[Z.to_nat p := x]> v) p = Some x.
Proof.
  unfold at_period, in_range. intros [Hp Hlt].
  destruct (Z.ltb_spec p 0); [lia|].
  apply list_lookup_insert_eq. lia.
Qed.

Lemma at_period_insert_ne v p q x :
  0 ≤ p → p ≠ q → at_period (<[Z.to_nat p := x]> v) q = at_period v q.
Proof.
  unfold at_period. intros Hp Hne.
  destruct (Z.ltb_spec q 0); [done|].
  apply list_lookup_insert_ne. lia.
Qed.

Lemma in_range_insert v i x p : in_range (<[i := x]> v) p ↔ in_range v p.
Proof. unfold in_range. by rewrite length_insert. Qed.

(** ** Comparisons of doubles *)

Lemma Qlt_bool_true a b : Qlt_bool a b = true ↔ (a < b)%Q.
Proof.
  unfold Qlt_bool. rewrite negb_true_iff, <- not_true_iff_false, Qle_bool_iff.
  split; [apply Qnot_le_lt | apply Qlt_not_le].
Qed.

Lemma Qlt_bool_false a b : Qlt_bool a b = false ↔ (b <= a)%Q.
Proof. unfold Qlt_bool. by rewrite negb_false_iff, Qle_bool_iff. Qed.

Lemma Qle_bool_false a b : Qle_bool a b = false ↔ (b < a)%Q.
Proof.
  rewrite <- not_true_iff_false, Qle_bool_iff.
  split; [apply Qnot_le_lt | apply Qlt_not_le].
Qed.

Lemma Qeq_bool_false a b : Qeq_bool a b = false ↔ ¬ (a == b)%Q.
Proof. by rewrite <- not_true_iff_false, Qeq_bool_iff. Qed.

Lemma std_max_Qmax a b : (std_max a b == Qmax a b)%Q.
Proof.
  unfold std_max. destruct (Qlt_bool a b) eqn:Hab.
  - apply Qlt_bool_true in Hab. symmetry. apply Q.max_r. by apply Qlt_le_weak.
  - apply Qlt_bool_false in Hab. symmetry. by apply Q.max_l.
Qed.

(** ** Running the operations *)

Section Frames.

Context {CC MK : Type} `{!ICarbonCalc CC} `{!Marketplace MK}.
Context (scenario : Scenario).

Implicit Types (s : State CC MK) (l : LandLeaf CC) (p q : Z).

#[global] Instance sameField_preorder {T} (f : LandLeaf CC → T) :
  PreOrder (sameField (MK:=MK) f).
Proof.
  split; [by intros s|]. intros s1 s2 s3. unfold sameField. congruence.
Qed.

Context (R : relation (State CC MK)) `{!PreOrder R}.

Lemma keeps_mret {A} (a : A) : keeps R (mret a : M CC MK A).
Proof. intros s s' [= <-]. reflexivity. Qed.

Lemma keeps_bind {A B} (m : M CC MK A) (k : A → M CC MK B) :
  keeps R m → (∀ a, keeps R (k a)) → keeps R (m ≫= k).
Proof.
  intros Hm Hk s s'. unfold mbind, M_bind. specialize (Hm s).
  destruct (m s) as [a s1| |s1|]; cbn; intros Hs'.
  - transitivity s1; [by apply Hm | by apply (Hk a)].
  - by apply Hm.
  - by apply Hm.
  - done.
Qed.

Lemma keeps_theLeaf : keeps R (theLeaf : M CC MK _).
Proof. intros s s' [= <-]. reflexivity. Qed.

Lemma keeps_read v p : keeps R (read v p : M CC MK _).
Proof.
  intros s s'. unfold read. destruct (at_period _ _); [|done].
  intros [= <-]. reflexivity.
Qed.

Lemma keeps_exit {A} code : keeps R (exit code : M CC MK A).
Proof. intros s s' [= <-]. reflexivity. Qed.

Lemma keeps_marketGetPrice good region p mustExist :
  keeps R (marketGetPrice good region p mustExist : M CC MK _).
Proof. intros s s' [= <-]. reflexivity. Qed.

Lemma keeps_assert (c : M CC MK bool) : keeps R c → keeps R (assert scenario c).
Proof.
  intros Hc. unfold assert. destruct (NDEBUG scenario); [apply keeps_mret|].
  apply keeps_bind; [done|]. intros [|]; [apply keeps_mret|].
  intros s s' [= <-]. reflexivity.
Qed.

(** The steps that change the state keep [R] when [R] does not look at
    what they change. *)

Lemma keeps_emit e :
  (∀ s, R s {| leaf := leaf s; marketplace := marketplace s;
               events := events s ++ [e] |}) →
  keeps R (emit e : M CC MK _).
Proof. intros He s s' [= <-]. apply He. Qed.

Lemma keeps_marketAddToDemand good region value lastValue p flag :
  (∀ s mk evs, R s {| leaf := leaf s; marketplace := mk; events := evs |}) →
  keeps R (marketAddToDemand good region value lastValue p flag : M CC MK _).
Proof. intros Hmk s s' [= <-]. apply Hmk. Qed.

Lemma keeps_modifyLeaf (g : LandLeaf CC → LandLeaf CC) :
  (∀ s, R s {| leaf := g (leaf s); marketplace := marketplace s;
               events := events s |}) →
  keeps R (modifyLeaf g : M CC MK _).
Proof. intros Hg s s' [= <-]. apply Hg. Qed.

Lemma keeps_write v set_v p x :
  (∀ s v', R s {| leaf := set_v v' (leaf s); marketplace := marketplace s;
                  events := events s |}) →
  keeps R (write v set_v p x : M CC MK _).
Proof.
  intros Hset s s'. unfold write. destruct (set_period _ _ _); [|done].
  intros [= <-]. apply Hset.
Qed.

End Frames.

Ltac unfold_calls :=
  unfold initCalc, setInitShares, getCarbonSubsidy, setProfitRate,
    setUnmanagedLandProfitRate, calculateCalibrationProfitRate,
    setCarbonPriceIncreaseRate, leafSetSoilTimeScale, calcLandShares,
    calculateProfitScalers, calcLandAllocation, calcLUCEmissions,
    getLandAllocation, getCalLandAllocation, adjustProfitScalers,
    getProfitForChildWithHighestShare, ignore,
    choiceUnnormalizedShare, choiceImpliedCost, choiceShareWeight, log.

Ltac unfold_ops :=
  unfold_calls;
  unfold marketGetPrice, marketAddToDemand, assert, emit, exit, read, write,
    modifyLeaf, theLeaf, mbind, M_bind, mret, M_ret.

Tactic Notation "unfold_ops" "in" hyp(H) :=
  unfold initCalc, setInitShares, getCarbonSubsidy, setProfitRate,
    setUnmanagedLandProfitRate, calculateCalibrationProfitRate,
    setCarbonPriceIncreaseRate, leafSetSoilTimeScale, calcLandShares,
    calculateProfitScalers, calcLandAllocation, calcLUCEmissions,
    getLandAllocation, getCalLandAllocation, adjustProfitScalers,
    getProfitForChildWithHighestShare, ignore,
    choiceUnnormalizedShare, choiceImpliedCost, choiceShareWeight, log,
    marketGetPrice, marketAddToDemand, assert, emit, exit, read, write,
    modifyLeaf, theLeaf, mbind, M_bind, mret, M_ret in H.

Ltac exec_step :=
  match goal with
  | H : at_period ?v ?p = Some _ |- context [at_period ?v ?p] => rewrite H
  | H : in_range ?v ?p |- context [set_period ?v ?p ?x] =>
      rewrite (set_period_in_range v p x H)
  | |- context [set_period (<[?i := ?y]> ?v) ?p ?x] =>
      rewrite (set_period_in_range (<[i := y]> v) p x)
        by (rewrite ?in_range_insert; assumption)
  | H : ?b = _ |- context [if ?b then _ else _] => rewrite H
  | |- context [at_period (<[Z.to_nat ?p := ?x]> ?v) ?p] =>
      rewrite (at_period_insert_eq v p x)
        by (rewrite ?in_range_insert; assumption)
  | |- context [at_period (<[Z.to_nat ?p := ?x]> ?v) ?q] =>
      rewrite (at_period_insert_ne v p q x) by (unfold in_range in *; lia)
  end.

(** Unfold a call and run it as far as the hypotheses decide its reads,
    writes and tests. *)
(** Reduce the projections of states and leaves, and nothing of the
    arithmetic. *)
Ltac state_cbn :=
  cbn [leaf marketplace events fst snd negb andb orb
       mName mParent mLandAllocation mReadinLandAllocation mShare mProfitRate
       mProfitScaler mCalibrationProfitRate mCarbonPriceIncreaseRate
       mCarbonContentCalc mMinAboveGroundCDensity mMinBelowGroundCDensity
       mSocialDiscountRate mIsNewTech mGhostShareNumeratorForLeaf
       mNewTechStartYear mIsLandExpansionCost mLandExpansionCostName
       mLastCalcCO2Value mLastCalcExpansionValue
       set_mLandAllocation set_mShare set_mProfitRate set_mProfitScaler
       set_mCalibrationProfitRate set_mCarbonPriceIncreaseRate
       set_mCarbonContentCalc set_mLastCalcCO2Value
       set_mLastCalcExpansionValue].

Ltac exec := unfold_ops; state_cbn; repeat (exec_step; state_cbn).

(** Turn the boolean tests on doubles among the hypotheses into the
    relations they decide. *)
Ltac reflect_tests :=
  repeat match goal with
  | H : Qeq_bool _ _ = true |- _ => apply Qeq_bool_iff in H
  | H : Qeq_bool _ _ = false |- _ => apply Qeq_bool_false in H
  | H : Qlt_bool _ _ = true |- _ => apply Qlt_bool_true in H
  | H : Qlt_bool _ _ = false |- _ => apply Qlt_bool_false in H
  | H : Qle_bool _ _ = true |- _ => apply Qle_bool_iff in H
  | H : Qle_bool _ _ = false |- _ => apply Qle_bool_false in H
  end.

(** Replace what [set_period] answered by the updated array. *)
Ltac arrays :=
  repeat match goal with
  | H : set_period _ _ _ = Some _ |- _ =>
      apply set_period_Some in H as [? ->]
  end;
  unfold in_range in *.

(** Decide [keeps R m] for an operation [m] none of whose steps changes
    what [R] looks at. *)
Ltac frame_with lem :=
  apply lem; try match goal with |- PreOrder _ => exact _ end.

Ltac frame_change lem :=
  frame_with lem; intros; unfold sameField; reflexivity.

Ltac frame :=
  unfold_calls;
  repeat first
    [ frame_with @keeps_mret | frame_with @keeps_theLeaf
    | frame_with @keeps_read | frame_with @keeps_exit
    | frame_with @keeps_marketGetPrice
    | frame_change @keeps_emit | frame_change @keeps_marketAddToDemand
    | frame_change @keeps_modifyLeaf | frame_change @keeps_write
    | frame_with @keeps_assert
    | frame_with @keeps_bind; [|intros ?]
    | match goal with
      | |- keeps _ (if ?b then _ else _) => destruct b
      | |- keeps _ (match ?x with _ => _ end) => destruct x
      | |- keeps _ (let _ := _ in _) => cbv zeta
      end ].

Section Properties.

Context {CC MK : Type} `{!ICarbonCalc CC} `{!Marketplace MK}.
Context (scenario : Scenario).

Implicit Types (s : State CC MK) (l : LandLeaf CC) (p q : Z).
Implicit Types (fn : IDiscreteChoice) (c : Call) (cs : list Call).

(** *** What each call leaves alone *)

Lemma calcLandShares_keeps_leaf region fn p :
  keeps (sameField (λ l, l)) (calcLandShares (MK:=MK) region fn p).
Proof. frame. Qed.

Lemma getCarbonSubsidy_keeps_state region p :
  keeps eq (getCarbonSubsidy scenario region p).
Proof. frame. Qed.

Lemma perform_keeps_mProfitScaler c :
  writesProfitScaler c = false →
  keeps (sameField mProfitScaler) (perform scenario c).
Proof. destruct c; try discriminate; intros _; cbn [perform]; frame. Qed.

Lemma perform_keeps_mProfitRate c :
  writesProfitRate c = false →
  keeps (sameField mProfitRate) (perform scenario c).
Proof. destruct c; try discriminate; intros _; cbn [perform]; frame. Qed.

Lemma perform_keeps_entrant c :
  keeps (sameField (λ l, (mIsNewTech l, mNewTechStartYear l)))
    (perform scenario c).
Proof. destruct c; cbn [perform]; frame. Qed.

(** An invariant of every call is an invariant of every run. *)
Lemma performAll_invariant (I : State CC MK → Prop) :
  (∀ c s s', I s → finalState (perform scenario c s) = Some s' → I s') →
  ∀ cs s s', I s → finalState (performAll scenario cs s) = Some s' → I s'.
Proof.
  intros Hstep cs. induction cs as [|c cs IH]; intros s s' Hs.
  - intros [= <-]. done.
  - cbn [performAll]. unfold mbind, M_bind.
    specialize (Hstep c s). destruct (perform scenario c s) as [[] s1| |s1|]; cbn.
    + apply IH. by apply Hstep.
    + by apply Hstep.
    + by apply Hstep.
    + done.
Qed.


(** *** Forward projection *)

Lemma initCalc_mProfitScaler region p s s' :
  finalState (initCalc region p s) = Some s' →
  mProfitScaler (leaf s') = mProfitScaler (leaf s)
  ∨ (1 < p ∧ ∃ scaler previous,
       at_period (mProfitScaler (leaf s)) p = Some scaler ∧ (scaler == -1)%Q ∧
       at_period (mProfitScaler (leaf s)) (p - 1) = Some previous ∧
       mProfitScaler (leaf s') = <[Z.to_nat p := previous]> (mProfitScaler (leaf s))).
Proof.
  intros H. unfold_ops in H. cbn in H.
  repeat (case_match; cbn in *; simplify_eq); try (left; reflexivity).
  all: right; split; [by apply Z.ltb_lt|]; eexists _, _.
  all: repeat split; [by apply Qeq_bool_iff | eassumption |].
  all: match goal with H : set_period _ _ _ = Some ?l |- ?l = _ =>
         by apply set_period_Some in H as [_ ->] end.
Qed.

(** A call of [initCalc] that returns leaves a scaler other than the
    sentinel in its period. *)
Lemma initCalc_returns_set region p s s' x :
  initCalc region p s = Returns tt s' →
  at_period (mProfitScaler (leaf s')) p = Some x → ¬ (x == -1)%Q.
Proof.
  intros H Hx. unfold_ops in H. cbn in H.
  repeat (case_match; cbn in *; simplify_eq); by apply Qeq_bool_false.
Qed.

Lemma initCalc_unsetOrZeroBefore start region p s s' :
  unsetOrZeroBefore start (leaf s) →
  finalState (initCalc region p s) = Some s' →
  unsetOrZeroBefore start (leaf s').
Proof.
  unfold unsetOrZeroBefore.
  intros Hinv [->|(Hp & scaler & previous & Hsc & _ & Hprev & ->)]%initCalc_mProfitScaler;
    [done|].
  intros q x Hq. destruct (decide (p = q)) as [<-|Hne].
  - rewrite at_period_insert_eq by by eapply at_period_in_range.
    intros [= <-]. apply (Hinv (p - 1)); [lia | done].
  - rewrite at_period_insert_ne by lia. by apply Hinv.
Qed.

(** *** Calibration of the profit scalers *)

Lemma calculateProfitScalers_entrant_before region fn p s s' q :
  mIsNewTech (leaf s) = true →
  q < newTechStartPeriod scenario (leaf s) →
  finalState (calculateProfitScalers scenario region fn p s) = Some s' →
  at_period (mProfitScaler (leaf s')) q = at_period (mProfitScaler (leaf s)) q
  ∨ at_period (mProfitScaler (leaf s')) q = Some 0%Q.
Proof.
  unfold newTechStartPeriod. intros Hnew Hq H.
  unfold_ops in H. cbn in H. rewrite Hnew in H.
  repeat (case_match; cbn in *; simplify_eq); arrays.
  all: rewrite ?length_insert in *.
  all: destruct (decide (p = q)) as [<-|Hne].
  all: repeat first
         [ rewrite at_period_insert_eq
             by (unfold in_range; rewrite ?length_insert; lia)
         | rewrite at_period_insert_ne by lia ].
  all: auto.
Qed.

Lemma calculateProfitScalers_entrant_unsetOrZeroBefore region fn p s s' :
  mIsNewTech (leaf s) = true →
  unsetOrZeroBefore (newTechStartPeriod scenario (leaf s)) (leaf s) →
  finalState (calculateProfitScalers scenario region fn p s) = Some s' →
  unsetOrZeroBefore (newTechStartPeriod scenario (leaf s)) (leaf s').
Proof.
  intros Hnew Hinv H q x Hq Hx.
  destruct (calculateProfitScalers_entrant_before _ _ _ _ _ q Hnew Hq H) as [Heq|Heq];
    rewrite Heq in Hx.
  - by apply (Hinv q).
  - left. by injection Hx as <-.
Qed.

(** *** The claims *)

(** C1 (as amended).  [calcLUCEmissions] always returns.  It submits the
    net land-use-change emission to the CO2_LUC market exactly when the
    horizon year differs from the model's end year or the period is the
    last one; when the horizon is the end year in an earlier period it
    submits nothing and leaves the marketplace and the remembered
    contribution as they were. *)
Theorem calcLUCEmissions_submission region p endYear s :
  ∃ s', calcLUCEmissions scenario region p endYear s = Returns tt s' ∧
    if decide (endYear ≠ getEndYear scenario
               ∨ p = getmaxper (modeltime scenario) - 1)
    then events s' =
           events s ++
           [EvAddToDemand "CO2_LUC" region
              (getNetLandUseChangeEmission
                 (calc (mCarbonContentCalc (leaf s)) p endYear)
                 (getper_to_yr (modeltime scenario) p))
              (mLastCalcCO2Value (leaf s)) p false]
         ∧ submissions "CO2_LUC" (events s')
           = S (submissions "CO2_LUC" (events s))
    else events s' = events s ∧ marketplace s' = marketplace s
         ∧ mLastCalcCO2Value (leaf s') = mLastCalcCO2Value (leaf s).
Proof.
  unfold_ops. cbn. case_decide as Hcond.
  - assert (negb (endYear =? getEndYear scenario)
            || (p =? getmaxper (modeltime scenario) - 1) = true) as ->.
    { destruct Hcond as [Hne| ->].
      - by apply Z.eqb_neq in Hne as ->.
      - rewrite Z.eqb_refl. apply orb_true_r. }
    eexists. split; [reflexivity|]. cbn. split; [reflexivity|].
    unfold submissions. rewrite List.filter_app, length_app.
    cbn [List.filter isSubmission]. rewrite bool_decide_eq_true_2 by done.
    cbn. lia.
  - assert (negb (endYear =? getEndYear scenario)
            || (p =? getmaxper (modeltime scenario) - 1) = false) as ->.
    { apply orb_false_iff. split.
      - apply negb_false_iff, Z.eqb_eq. lia.
      - apply Z.eqb_neq. tauto. }
    eexists. split; [reflexivity|]. done.
Qed.

(** C2.  When the profit rate of the period is not positive,
    [calcLandShares] hands the scaler 0 to [calcUnnormalizedShare],
    whatever the calibrated scaler is, and returns what the choice function
    answers; under the contract that the scaler 0 forces the weight 0, the
    weight it returns is 0. *)
Theorem calcLandShares_nonpositive_profit region fn p s profit :
  (∀ r q, calcUnnormalizedShare fn 0 r q == 0)%Q →
  at_period (mProfitRate (leaf s)) p = Some profit →
  (profit <= 0)%Q →
  ∃ weight,
    calcLandShares region fn p s =
      Returns weight
        {| leaf := leaf s; marketplace := marketplace s;
           events := events s ++ [EvUnnormalizedShare 0 profit p] |}
    ∧ weight = calcUnnormalizedShare fn 0 profit p
    ∧ (weight == 0)%Q.
Proof.
  intros Hcontract Hprofit Hle. apply Qle_bool_iff in Hle.
  eexists. split; [exec; reflexivity|]. split; [reflexivity | apply Hcontract].
Qed.

(** C4.  In a period [p > 1], [initCalc] copies the previous
    period's scaler over a scaler that is the sentinel -1, and the previous
    period's share over a share that is the sentinel -1.  In every period,
    if the scaler is the sentinel once this is done, the call logs an
    error and exits with -1; otherwise it returns. *)
Theorem initCalc_forward_projection region p s scaler share :
  at_period (mProfitScaler (leaf s)) p = Some scaler →
  at_period (mShare (leaf s)) p = Some share →
  (1 < p →
   ∃ previousScaler previousShare,
     at_period (mProfitScaler (leaf s)) (p - 1) = Some previousScaler ∧
     at_period (mShare (leaf s)) (p - 1) = Some previousShare ∧
     let scaler' := if Qeq_bool scaler (-1) then previousScaler else scaler in
     let share' := if Qeq_bool share (-1) then previousShare else share in
     ∃ s', at_period (mProfitScaler (leaf s')) p = Some scaler' ∧
           at_period (mShare (leaf s')) p = Some share' ∧
           if Qeq_bool scaler' (-1)
           then initCalc region p s = Exits (-1) s' ∧
                ∃ message, events s' = events s ++ [EvLog ERROR message]
           else initCalc region p s = Returns tt s' ∧ events s' = events s)
  ∧ (p ≤ 1 →
     if Qeq_bool scaler (-1)
     then ∃ s', initCalc region p s = Exits (-1) s' ∧ leaf s' = leaf s ∧
                ∃ message, events s' = events s ++ [EvLog ERROR message]
     else initCalc region p s = Returns tt s).
Proof.
  intros Hsc Hsh.
  pose proof (at_period_in_range _ _ _ Hsc) as Hr1.
  pose proof (at_period_in_range _ _ _ Hsh) as Hr2.
  split; intros Hp.
  - destruct (in_range_at_period (mProfitScaler (leaf s)) (p - 1))
      as [previousScaler Hprev]; [unfold in_range in *; lia|].
    destruct (in_range_at_period (mShare (leaf s)) (p - 1))
      as [previousShare Hprevsh]; [unfold in_range in *; lia|].
    exists previousScaler, previousShare. split; [done|]. split; [done|].
    assert ((1 <? p) = true) as H1 by (by apply Z.ltb_lt).
    cbv zeta.
    destruct (Qeq_bool scaler (-1)) eqn:E1; cbv iota;
      [destruct (Qeq_bool previousScaler (-1)) eqn:E3 | rewrite E1];
      destruct (Qeq_bool share (-1)) eqn:E2.
    all: eexists; split; [|split; [|split; [exec; reflexivity|]]]; cbn.
    all: repeat exec_step; eauto.
  - assert ((1 <? p) = false) as H1 by (apply Z.ltb_ge; lia).
    destruct (Qeq_bool scaler (-1)) eqn:E1.
    + eexists. split; [exec; reflexivity|]. cbn. eauto.
    + exec. by destruct s.
Qed.

(** C6 (as amended).  [calcLandAllocation] stores the parent's allocation
    times the share when the parent's allocation is positive and 0 when it
    is not, without dividing; so the stored allocation is the product
    whenever the parent's allocation is not negative.  The share is left
    as it is. *)
Theorem calcLandAllocation_share_of_parent region above p s share :
  at_period (mShare (leaf s)) p = Some share →
  in_range (mLandAllocation (leaf s)) p →
  NDEBUG scenario = true ∨ (0 <= share ∧ share <= 1)%Q →
  ∃ s' allocation,
    calcLandAllocation scenario region above p s = Returns tt s' ∧
    at_period (mLandAllocation (leaf s')) p = Some allocation ∧
    mShare (leaf s') = mShare (leaf s) ∧
    ((0 < above)%Q → allocation = (above * share)%Q) ∧
    ((above <= 0)%Q → allocation = 0%Q) ∧
    ((0 <= above)%Q → (allocation == above * share)%Q).
Proof.
  intros Hshare Hrange Hassert.
  assert (assert scenario
            (share ← read mShare p; mret (Qle_bool 0 share && Qle_bool share 1)) s
          = Returns tt s) as Hpass.
  { destruct Hassert as [Hnd|[H0 H1]]; unfold assert; [by rewrite Hnd|].
    destruct (NDEBUG scenario); [done|]. exec.
    apply Qle_bool_iff in H0, H1. by rewrite H0, H1. }
  unfold calcLandAllocation. unfold mbind at 1, M_bind at 1. rewrite Hpass.
  destruct (Qlt_bool 0 above) eqn:Habove;
    destruct (mIsLandExpansionCost (leaf s)) eqn:Hflag.
  all: eexists _, _; split; [exec; reflexivity|]; cbn.
  all: rewrite at_period_insert_eq by done.
  all: split; [reflexivity|]; split; [reflexivity|].
  1,2: apply Qlt_bool_true in Habove as Hpos.
  3,4: apply Qlt_bool_false in Habove as Hneg.
  all: split; [|split]; intros Habove'; try reflexivity.
  1,2: exfalso; by apply (Qlt_not_le _ _ Hpos).
  1,3: exfalso; by apply (Qlt_not_le _ _ Habove').
  all: assert (above == 0)%Q as -> by (by apply Qle_antisym); ring.
Qed.

(** C7.  For a leaf that is not an entrant, [calculateProfitScalers]
    always returns.  When the calibration profit rate or the profit rate
    of the period is 0 it sets the scaler to 0 and does not call the
    inverse of the choice function.  Otherwise it calls [calcShareWeight]
    on the share and the profit rate of the period and stores the answer,
    except that a negative answer is replaced by 0 after a warning is
    logged. *)
Theorem calculateProfitScalers_existing_leaf
    region fn p s calibrationProfit profit share :
  mIsNewTech (leaf s) = false →
  at_period (mCalibrationProfitRate (leaf s)) p = Some calibrationProfit →
  at_period (mProfitRate (leaf s)) p = Some profit →
  at_period (mShare (leaf s)) p = Some share →
  in_range (mProfitScaler (leaf s)) p →
  let weight := calcShareWeight fn share profit p in
  ∃ s', calculateProfitScalers scenario region fn p s = Returns tt s' ∧
    ((calibrationProfit == 0 ∨ profit == 0)%Q →
       at_period (mProfitScaler (leaf s')) p = Some 0%Q ∧
       events s' = events s) ∧
    (¬ (calibrationProfit == 0)%Q → ¬ (profit == 0)%Q → (0 <= weight)%Q →
       at_period (mProfitScaler (leaf s')) p = Some weight ∧
       events s' = events s ++ [EvShareWeight share profit p]) ∧
    (¬ (calibrationProfit == 0)%Q → ¬ (profit == 0)%Q → (weight < 0)%Q →
       at_period (mProfitScaler (leaf s')) p = Some 0%Q ∧
       ∃ message,
         events s' =
           events s ++ [EvShareWeight share profit p; EvLog WARNING message]).
Proof.
  intros Hold Hcal Hprofit Hshare Hrange weight. subst weight.
  destruct (Qeq_bool calibrationProfit 0) eqn:Ecal;
    [|destruct (Qeq_bool profit 0) eqn:Eprofit;
      [|destruct (Qlt_bool (calcShareWeight fn share profit p) 0) eqn:Eweight]].
  all: eexists; split; [exec; reflexivity|]; cbn.
  all: reflect_tests.
  all: rewrite ?at_period_insert_eq
         by (unfold in_range in *; rewrite ?length_insert; done).
  all: repeat split; intros; try tauto.
  all: try (exfalso; by eapply Qlt_not_le).
  all: try by rewrite <- app_assoc.
  all: eexists; by rewrite <- app_assoc.
Qed.

(** C8.  When the marketplace answers [NO_MARKET_PRICE] for CO2_LUC, or a
    price that is not positive, [getCarbonSubsidy] returns exactly 0 and
    changes nothing, whatever the carbon densities of the leaf. *)
Theorem getCarbonSubsidy_without_price region p s :
  let price := getPrice (marketplace s) "CO2_LUC" region p false in
  (price == NO_MARKET_PRICE ∨ price <= 0)%Q →
  getCarbonSubsidy scenario region p s = Returns 0%Q s.
Proof.
  intros price [Hnone|Hle]; unfold getCarbonSubsidy, marketGetPrice, mbind, M_bind;
    fold price.
  - apply Qeq_bool_iff in Hnone. by rewrite Hnone.
  - apply Qlt_bool_false in Hle. by rewrite Hle, andb_false_r.
Qed.




(** *** The profit rate *)

Lemma getCarbonSubsidy_returns_state region p s subsidy s' :
  getCarbonSubsidy scenario region p s = Returns subsidy s' → s' = s.
Proof.
  intros H. symmetry. apply (getCarbonSubsidy_keeps_state region p s s').
  by rewrite H.
Qed.

Lemma setProfitRate_stores region product raw p s subsidy :
  in_range (mProfitRate (leaf s)) p →
  getCarbonSubsidy scenario region p s = Returns subsidy s →
  setProfitRate scenario region product raw p s =
    Returns tt
      {| leaf :=
           set_mProfitRate
             (<[Z.to_nat p :=
                 std_max
                   ((if mIsLandExpansionCost (leaf s)
                     then raw - getPrice (marketplace s)
                                  (mLandExpansionCostName (leaf s)) region p true
                     else raw) + subsidy) 0]> (mProfitRate (leaf s)))
             (leaf s);
         marketplace := marketplace s; events := events s |}.
Proof.
  intros Hrange Hsubsidy.
  unfold setProfitRate, theLeaf, marketGetPrice, mbind, M_bind, mret, M_ret.
  destruct (mIsLandExpansionCost (leaf s)); rewrite Hsubsidy.
  all: unfold write, modifyLeaf; by rewrite set_period_in_range.
Qed.

(** C9.  Trial evaluation leaves the calibration state alone:
    [calcLandShares] changes nothing of the leaf, its share included;
    neither [setProfitRate] nor [calcLandShares] nor [calcLandAllocation],
    nor any call other than [calculateProfitScalers] and [initCalc],
    changes a profit scaler; and [initCalc] changes one only by copying the
    previous period's scaler over the sentinel -1. *)
Theorem trial_evaluation_keeps_calibration :
  (∀ region fn p s s',
     finalState (calcLandShares region fn p s) = Some s' → leaf s' = leaf s)
  ∧ (∀ region product raw p s s',
       finalState (setProfitRate scenario region product raw p s) = Some s' →
       mProfitScaler (leaf s') = mProfitScaler (leaf s))
  ∧ (∀ region above p s s',
       finalState (calcLandAllocation scenario region above p s) = Some s' →
       mProfitScaler (leaf s') = mProfitScaler (leaf s))
  ∧ (∀ c s s',
       writesProfitScaler c = false →
       finalState (perform scenario c s) = Some s' →
       mProfitScaler (leaf s') = mProfitScaler (leaf s))
  ∧ (∀ region p s s',
       finalState (initCalc region p s) = Some s' →
       mProfitScaler (leaf s') = mProfitScaler (leaf s)
       ∨ (1 < p ∧ ∃ scaler previous,
            at_period (mProfitScaler (leaf s)) p = Some scaler ∧
            (scaler == -1)%Q ∧
            at_period (mProfitScaler (leaf s)) (p - 1) = Some previous ∧
            mProfitScaler (leaf s') =
              <[Z.to_nat p := previous]> (mProfitScaler (leaf s)))).
Proof.
  split; [|split; [|split; [|split]]].
  - intros region fn p s s'. apply calcLandShares_keeps_leaf.
  - intros region product raw p s s'.
    apply (perform_keeps_mProfitScaler (SetProfitRate region product raw p) eq_refl).
  - intros region above p s s'.
    apply (perform_keeps_mProfitScaler (CalcLandAllocation region above p) eq_refl).
  - intros c s s' Hc. by apply perform_keeps_mProfitScaler.
  - apply initCalc_mProfitScaler.
Qed.

(** *** Entrants *)

(** What stays true of an entrant along a run: it is an entrant, its start
    period is [start], and no scaler before [start] is other than 0 or the
    sentinel. *)
Lemma perform_entrant_invariant start c s s' :
  mIsNewTech (leaf s) = true ∧ newTechStartPeriod scenario (leaf s) = start
    ∧ unsetOrZeroBefore start (leaf s) →
  finalState (perform scenario c s) = Some s' →
  mIsNewTech (leaf s') = true ∧ newTechStartPeriod scenario (leaf s') = start
    ∧ unsetOrZeroBefore start (leaf s').
Proof.
  intros (Hnew & Hstart & Hinv) H.
  pose proof (perform_keeps_entrant c s s' H) as [= Hnew' Hyear'].
  unfold newTechStartPeriod in *. rewrite Hnew', Hyear'.
  split; [done|]. split; [done|].
  destruct (writesProfitScaler c) eqn:Hc.
  - destruct c; try discriminate; cbn [perform] in H.
    + by eapply initCalc_unsetOrZeroBefore.
    + subst start.
      exact (calculateProfitScalers_entrant_unsetOrZeroBefore _ _ _ _ _ Hnew Hinv H).
  - apply (perform_keeps_mProfitScaler c Hc) in H.
    unfold sameField, unsetOrZeroBefore in *. by rewrite H.
Qed.

(** C3 (as amended).  For an entrant, calibrating a period sets the scaler
    of that period to 0 and the scaler of the start period to what
    [calcShareWeight] answers for the ghost share and the parent's
    calibration profit for new technologies, no historical share or profit
    rate of the leaf being used; calibrating the start period itself
    replaces a negative answer by 0.  Along every sequence of calls the
    scalers before the start period stay 0 or unset, and once [initCalc]
    has returned for such a period its scaler is 0.  Nothing is checked of
    the scaler of the start period: it is 0 whenever the value stored is. *)
Theorem entrant_profit_scaler :
  (∀ region fn p s,
     mIsNewTech (leaf s) = true →
     let start := newTechStartPeriod scenario (leaf s) in
     let weight :=
       calcShareWeight fn (mGhostShareNumeratorForLeaf (leaf s))
         (parentCalibrationProfitForNewTech (mParent (leaf s)) p) p in
     in_range (mCalibrationProfitRate (leaf s)) p →
     in_range (mProfitScaler (leaf s)) p →
     in_range (mProfitScaler (leaf s)) start →
     ∃ s', calculateProfitScalers scenario region fn p s = Returns tt s' ∧
       (p ≠ start →
          at_period (mProfitScaler (leaf s')) p = Some 0%Q ∧
          at_period (mProfitScaler (leaf s')) start = Some weight) ∧
       (p = start →
          at_period (mProfitScaler (leaf s')) start
          = Some (if Qlt_bool weight 0 then 0%Q else weight)))
  ∧ (∀ cs s s',
       mIsNewTech (leaf s) = true →
       unsetOrZeroBefore (newTechStartPeriod scenario (leaf s)) (leaf s) →
       finalState (performAll scenario cs s) = Some s' →
       unsetOrZeroBefore (newTechStartPeriod scenario (leaf s)) (leaf s'))
  ∧ (∀ region start q s s' x,
       unsetOrZeroBefore start (leaf s) → q < start →
       initCalc region q s = Returns tt s' →
       at_period (mProfitScaler (leaf s')) q = Some x → (x == 0)%Q).
Proof.
  split; [|split].
  - intros region fn p s Hnew start weight Hcal Hp Hstart.
    assert (getyr_to_per (modeltime scenario) (mNewTechStartYear (leaf s))
            = start) as Hdef by reflexivity.
    clearbody start.
    destruct (in_range_at_period _ _ Hcal) as [calibrationProfit Hcal'].
    destruct (decide (p = start)) as [<-|Hne].
    + destruct (Qlt_bool weight 0) eqn:Hweight; subst weight.
      all: eexists; split; [exec; rewrite Hdef; repeat (exec_step; state_cbn);
                            reflexivity|].
      all: split; [done|]; intros _; state_cbn.
      all: by rewrite at_period_insert_eq by by rewrite ?in_range_insert.
    + assert (Qlt_bool 0 0 = false) as Hzero by done.
      eexists. split; [exec; rewrite Hdef; repeat (exec_step; state_cbn);
                       reflexivity|].
      split; [|done]. intros _. state_cbn. split.
      * unfold in_range in Hstart. rewrite at_period_insert_ne by lia.
        by apply at_period_insert_eq.
      * apply at_period_insert_eq. by rewrite in_range_insert.
  - intros cs s s' Hnew Hinv H.
    apply (performAll_invariant
             (λ s0, mIsNewTech (leaf s0) = true
                    ∧ newTechStartPeriod scenario (leaf s0)
                      = newTechStartPeriod scenario (leaf s)
                    ∧ unsetOrZeroBefore (newTechStartPeriod scenario (leaf s))
                        (leaf s0))) in H; [apply H | | done].
    intros c s0 s0'. apply perform_entrant_invariant.
  - intros region start q s s' x Hinv Hq H Hx.
    assert (finalState (initCalc region q s) = Some s') as Hfinal by by rewrite H.
    destruct (initCalc_unsetOrZeroBefore start _ _ _ _ Hinv Hfinal q x Hq Hx)
      as [Hzero|Hunset]; [done|].
    by destruct (initCalc_returns_set _ _ _ _ _ H Hx).
Qed.

End Properties.

(** ** The profit rate in doubles *)

Section Binary64Properties.

Context {CC MK : Type} `{!Binary64.ICarbonCalc CC} `{!Binary64.Marketplace MK}.
Context (scenario : Scenario).

Implicit Types (s : Binary64.State CC MK) (p : Z) (a : float).

(** What [std::max( a, 0.0 )] is, by the sign of [a]. *)
Lemma Binary64_std_max_not_below a : (Binary64.std_max a 0 <? 0)%float = false.
Proof.
  unfold Binary64.std_max. by destruct (a <? 0)%float eqn:Ha.
Qed.

Lemma Binary64_std_max_number a :
  is_nan a = false → (0 <=? Binary64.std_max a 0)%float = true.
Proof.
  unfold Binary64.std_max, is_nan. intros Hnan.
  destruct (a <? 0)%float eqn:Ha; [reflexivity|].
  rewrite FloatAxioms.ltb_spec in Ha. rewrite FloatAxioms.leb_spec.
  rewrite FloatAxioms.eqb_spec in Hnan.
  change (Prim2SF 0) with (S754_zero false) in *.
  destruct (Prim2SF a) as [sign|sign| |sign m e]; try destruct sign; cbn in *; done.
Qed.

Lemma Binary64_std_max_NaN a :
  is_nan a = true →
  Binary64.std_max a 0 = a ∧ (0 <=? Binary64.std_max a 0)%float = false.
Proof.
  unfold Binary64.std_max, is_nan. intros Hnan.
  assert (Prim2SF a = S754_nan) as Ha.
  { rewrite FloatAxioms.eqb_spec in Hnan.
    destruct (Prim2SF a) as [sign|sign| |sign m e]; try destruct sign; cbn in *;
      try done.
    all: rewrite Z.compare_refl in Hnan.
    all: change (PosDef.Pos.compare_cont Eq m m) with (m ?= m)%positive in Hnan.
    all: by rewrite Pos.compare_refl in Hnan. }
  rewrite FloatAxioms.ltb_spec, Ha. cbn. split; [done|].
  by rewrite FloatAxioms.leb_spec, Ha.
Qed.

Lemma Binary64_getCarbonSubsidy_keeps_state region p s subsidy s' :
  Binary64.getCarbonSubsidy scenario region p s = Returns subsidy s' → s' = s.
Proof.
  unfold Binary64.getCarbonSubsidy.
  repeat case_match; congruence.
Qed.

Lemma Binary64_setProfitRate_noneBelowZero region product raw p s s' :
  Binary64.noneBelowZero (Binary64.leaf s) →
  Binary64.setProfitRate scenario region product raw p s = Returns tt s' →
  Binary64.noneBelowZero (Binary64.leaf s').
Proof.
  intros Hinv. unfold Binary64.setProfitRate. cbv zeta.
  destruct (Binary64.getCarbonSubsidy scenario region p s)
    as [subsidy s1| | |] eqn:Hsubsidy; try done.
  apply Binary64_getCarbonSubsidy_keeps_state in Hsubsidy as ->.
  unfold Binary64.set_period.
  destruct (_ && _) eqn:Hrange; [|done]. intros [= <-].
  apply andb_true_iff in Hrange as [Hp%Z.leb_le Hlt%Z.ltb_lt].
  intros q x. unfold Binary64.at_period.
  cbn [Binary64.leaf Binary64.mProfitRate Binary64.set_mProfitRate].
  destruct (Z.ltb_spec q 0); [done|].
  destruct (decide (p = q)) as [<-|Hne].
  - rewrite list_lookup_insert_eq by lia. intros [= <-].
    apply Binary64_std_max_not_below.
  - rewrite list_lookup_insert_ne by lia. intros Hx.
    apply (Hinv q x). unfold Binary64.at_period.
    by destruct (Z.ltb_spec q 0); [lia|].
Qed.

End Binary64Properties.

Section ProfitRate.

Context {CC MK : Type} `{!ICarbonCalc CC} `{!Marketplace MK}.
Context {CC64 MK64 : Type} `{!Binary64.ICarbonCalc CC64} `{!Binary64.Marketplace MK64}.
Context (scenario : Scenario).

(** C5.  In doubles, [setProfitRate] stores [std::max] of 0 and the raw
    profit rate, less the expansion cost for a leaf with a
    land-expansion-cost market and only for such a leaf, plus the carbon
    subsidy, and changes nothing else.  What it stores is never below 0; it
    is at least 0 when that sum is a number, and is the NaN, which is not
    at least 0, when the sum is NaN.  So a call that returns leaves no
    profit rate below 0 once none is.  No other call changes a profit
    rate. *)
Theorem profitRate_never_negative :
  (∀ region product raw p (s : Binary64.State CC64 MK64) subsidy,
     Binary64.in_range (Binary64.mProfitRate (Binary64.leaf s)) p →
     Binary64.getCarbonSubsidy scenario region p s = Returns subsidy s →
     let adjusted :=
       if Binary64.mIsLandExpansionCost (Binary64.leaf s)
       then (raw - Binary64.getPrice (Binary64.marketplace s)
                     (Binary64.mLandExpansionCostName (Binary64.leaf s))
                     region p true)%float
       else raw in
     let stored := Binary64.std_max (adjusted + subsidy)%float 0 in
     Binary64.setProfitRate scenario region product raw p s
     = Returns tt
         {| Binary64.leaf :=
              Binary64.set_mProfitRate
                (<[Z.to_nat p := stored]> (Binary64.mProfitRate (Binary64.leaf s)))
                (Binary64.leaf s);
            Binary64.marketplace := Binary64.marketplace s |}
     ∧ (stored <? 0)%float = false
     ∧ (is_nan (adjusted + subsidy)%float = false → (0 <=? stored)%float = true)
     ∧ (is_nan (adjusted + subsidy)%float = true →
        is_nan stored = true ∧ (0 <=? stored)%float = false))
  ∧ (∀ region product raw p (s s' : Binary64.State CC64 MK64),
       Binary64.noneBelowZero (Binary64.leaf s) →
       Binary64.setProfitRate scenario region product raw p s = Returns tt s' →
       Binary64.noneBelowZero (Binary64.leaf s'))
  ∧ (∀ c (s s' : State CC MK),
       writesProfitRate c = false →
       finalState (perform scenario c s) = Some s' →
       mProfitRate (leaf s') = mProfitRate (leaf s)).
Proof.
  split; [|split].
  - intros region product raw p s subsidy Hrange Hsubsidy adjusted stored.
    split; [|split; [|split]].
    + unfold Binary64.setProfitRate. cbv zeta. rewrite Hsubsidy.
      fold adjusted. fold stored. unfold Binary64.set_period.
      unfold Binary64.in_range in Hrange.
      assert ((0 <=? p) && (p <? Z.of_nat (length (Binary64.mProfitRate (Binary64.leaf s))))
              = true) as ->; [|done].
      apply andb_true_iff. split; [apply Z.leb_le | apply Z.ltb_lt]; lia.
    + apply Binary64_std_max_not_below.
    + apply Binary64_std_max_number.
    + intros Hnan. destruct (Binary64_std_max_NaN _ Hnan) as [Hstored Hle].
      subst stored. split; [by rewrite Hstored | exact Hle].
  - intros region product raw p s s'.
    apply Binary64_setProfitRate_noneBelowZero.
  - intros c s s' Hc Hrun. by apply (perform_keeps_mProfitRate scenario c Hc) in Hrun.
Qed.

End ProfitRate.

(** * The claims on concrete leaves *)

Lemma unsetOrZeroBefore_Forall {CC} start (l : LandLeaf CC) :
  Forall (λ x, x == 0 ∨ x == -1)%Q (take (Z.to_nat start) (mProfitScaler l)) →
  unsetOrZeroBefore start l.
Proof.
  intros Hall q x Hq. unfold at_period. destruct (Z.ltb_spec q 0); [done|].
  intros Hx. apply (Forall_lookup_1 _ _ (Z.to_nat q) _ Hall).
  rewrite lookup_take_lt by lia. exact Hx.
Qed.

(** C1, the claim as it was stated, refuted: with the horizon 2020, which
    is not the end year 2095, in period 3, which is not the last period 8,
    the emission is submitted to the CO2_LUC market. *)
Lemma calcLUCEmissions_submits_for_intermediate_horizon :
  2020 ≠ getEndYear debugRun ∧ 3 ≠ getmaxper (modeltime debugRun) - 1 ∧
  ∃ s', calcLUCEmissions debugRun "USA" 3 2020 (start cropLeaf noMarkets)
        = Returns tt s'
        ∧ events s' = [EvAddToDemand "CO2_LUC" "USA" 12 0 3 false]
        ∧ submissions "CO2_LUC" (events s') = 1%nat.
Proof.
  split; [done|]. split; [done|]. eexists. split; [vm_compute; reflexivity|]. done.
Qed.

(** C2 on the calibrated leaf in period 2, where its profit rate is 0. *)
Lemma calcLandShares_nonpositive_profit_witness :
  ∃ weight,
    calcLandShares "USA" linearChoice 2 (start cropLeaf noMarkets) =
      Returns weight
        {| leaf := cropLeaf; marketplace := noMarkets;
           events := [EvUnnormalizedShare 0 0 2] |}
    ∧ weight = calcUnnormalizedShare linearChoice 0 0 2
    ∧ (weight == 0)%Q.
Proof.
  apply (calcLandShares_nonpositive_profit "USA" linearChoice 2
           (start cropLeaf noMarkets) 0).
  - intros r q. apply Qmult_0_l.
  - reflexivity.
  - apply Qle_refl.
Defined.

(** C4 on the calibrated leaf in period 2, whose scaler and share are
    copied forward, and on the uncalibrated entrant in period 1, where the
    run exits. *)
Lemma initCalc_forward_projection_witness :
  (∃ s', initCalc "USA" 2 (start cropLeaf noMarkets) = Returns tt s'
         ∧ at_period (mProfitScaler (leaf s')) 2 = Some 2%Q
         ∧ at_period (mShare (leaf s')) 2 = Some 0.5%Q
         ∧ events s' = [])
  ∧ (∃ s', initCalc "USA" 1 (start (entrantLeaf 0.25) noMarkets) = Exits (-1) s'
           ∧ leaf s' = entrantLeaf 0.25
           ∧ ∃ message, events s' = [EvLog ERROR message]).
Proof.
  split.
  - destruct (proj1 (initCalc_forward_projection "USA" 2
                       (start cropLeaf noMarkets) (-1) (-1) eq_refl eq_refl))
      as (previousScaler & previousShare & Hscaler & Hshare & s' & H1 & H2 & H3);
      [lia|].
    injection Hscaler as <-. injection Hshare as <-.
    exists s'. destruct H3 as [H3 H4]. done.
  - apply (proj2 (initCalc_forward_projection "USA" 1
                    (start (entrantLeaf 0.25) noMarkets) (-1) 0 eq_refl eq_refl)).
    lia.
Defined.

(** C3, the claim as it was stated, refuted: an entrant configured with
    the ghost share 0, calibrated in period 1, is left with the scaler 0
    at its start period 3. *)
Lemma entrant_scaler_zero_at_start_period :
  mIsNewTech (entrantLeaf 0) = true ∧
  newTechStartPeriod debugRun (entrantLeaf 0) = 3 ∧
  ∃ s' x,
    calculateProfitScalers debugRun "USA" linearChoice 1
      (start (entrantLeaf 0) noMarkets) = Returns tt s'
    ∧ at_period (mProfitScaler (leaf s')) 3 = Some x ∧ (x == 0)%Q.
Proof.
  split; [done|]. split; [done|].
  eexists _, _. split; [vm_compute; reflexivity|]. split; [reflexivity|done].
Qed.

(** C3 on an entrant with the ghost share 0.25 starting in period 3. *)
Lemma entrant_profit_scaler_witness :
  (∃ s', calculateProfitScalers debugRun "USA" linearChoice 1
           (start (entrantLeaf 0.25) noMarkets) = Returns tt s'
         ∧ at_period (mProfitScaler (leaf s')) 1 = Some 0%Q
         ∧ at_period (mProfitScaler (leaf s')) 3
           = Some (calcShareWeight linearChoice 0.25 10 1))
  ∧ (∃ s', finalState
             (performAll debugRun
                [CalculateProfitScalers "USA" linearChoice 0;
                 CalculateProfitScalers "USA" linearChoice 1;
                 InitCalc "USA" 0; InitCalc "USA" 1; InitCalc "USA" 2]
                (start (entrantLeaf 0.25) noMarkets)) = Some s'
           ∧ unsetOrZeroBefore 3 (leaf s'))
  ∧ (∃ s' x, initCalc "USA" 2
               (start (set_mProfitScaler [0; 0; -1; 0.025; -1; -1; -1; -1; -1]%Q
                         (entrantLeaf 0.25)) noMarkets) = Returns tt s'
             ∧ at_period (mProfitScaler (leaf s')) 2 = Some x ∧ (x == 0)%Q).
Proof.
  split; [|split].
  - destruct (proj1 (entrant_profit_scaler debugRun) "USA" linearChoice 1
                (start (entrantLeaf 0.25) noMarkets) eq_refl)
      as (s' & Hreturns & Hbefore & _).
    + by vm_compute.
    + by vm_compute.
    + by vm_compute.
    + exists s'. split; [exact Hreturns|]. apply Hbefore. discriminate.
  - eexists. split; [vm_compute; reflexivity|].
    apply (proj1 (proj2 (entrant_profit_scaler debugRun))
             [CalculateProfitScalers "USA" linearChoice 0;
              CalculateProfitScalers "USA" linearChoice 1;
              InitCalc "USA" 0; InitCalc "USA" 1; InitCalc "USA" 2]
             (start (entrantLeaf 0.25) noMarkets) _ eq_refl).
    + apply unsetOrZeroBefore_Forall. repeat constructor; by right.
    + vm_compute. reflexivity.
  - eexists _, _. split; [vm_compute; reflexivity|]. split; [reflexivity|].
    eapply (proj2 (proj2 (entrant_profit_scaler debugRun)) "USA" 3 2
              (start (set_mProfitScaler [0; 0; -1; 0.025; -1; -1; -1; -1; -1]%Q
                        (entrantLeaf 0.25)) noMarkets)).
    + apply unsetOrZeroBefore_Forall. repeat constructor; (by left) || by right.
    + lia.
    + vm_compute. reflexivity.
    + reflexivity.
Defined.

(** C5, the claim as it was stated, refuted: given a raw profit rate that
    is NaN the leaf stores NaN, which is not at least 0; so it does given
    an infinite raw profit rate when the expansion cost is infinite too. *)
Lemma setProfitRate_stores_NaN :
  (∃ s' stored,
     Binary64.setProfitRate debugRun "USA" "Corn" nan 1
       {| Binary64.leaf := cropLeaf64 false; Binary64.marketplace := landMarket 0 |}
     = Returns tt s'
     ∧ Binary64.at_period (Binary64.mProfitRate (Binary64.leaf s')) 1 = Some stored
     ∧ is_nan stored = true ∧ (0 <=? stored)%float = false)
  ∧ (∃ s' stored,
       Binary64.setProfitRate debugRun "USA" "Corn" infinity 1
         {| Binary64.leaf := cropLeaf64 true;
            Binary64.marketplace := landMarket infinity |}
       = Returns tt s'
       ∧ Binary64.at_period (Binary64.mProfitRate (Binary64.leaf s')) 1 = Some stored
       ∧ is_nan stored = true ∧ (0 <=? stored)%float = false).
Proof.
  split; eexists _, _; (split; [vm_compute; reflexivity|]); by vm_compute.
Qed.

(** C5 on the calibrated leaf given the raw profit rate -50, and given the
    raw profit rate 20 when the expansion cost is 7.5. *)
Lemma profitRate_never_negative_witness :
  (∃ s',
     Binary64.setProfitRate debugRun "USA" "Corn" (-50) 1
       {| Binary64.leaf := cropLeaf64 false; Binary64.marketplace := landMarket 0 |}
     = Returns tt s'
     ∧ Binary64.mProfitRate (Binary64.leaf s') = [10; 0; 0; 0; 0; 0; 0; 0; 0]%float)
  ∧ (∃ s',
       Binary64.setProfitRate debugRun "USA" "Corn" 20 1
         {| Binary64.leaf := cropLeaf64 true; Binary64.marketplace := landMarket 7.5 |}
       = Returns tt s'
       ∧ Binary64.mProfitRate (Binary64.leaf s')
         = [10; 12.5; 0; 0; 0; 0; 0; 0; 0]%float)
  ∧ (∃ s', finalState
             (perform debugRun (CalcLandAllocation "USA" 200 1)
                (start cropLeaf noMarkets)) = Some s'
           ∧ mProfitRate (leaf s') = mProfitRate cropLeaf).
Proof.
  split; [|split].
  - destruct (proj1 (profitRate_never_negative (CC := FixedCarbon)
                       (MK := TableMarket) debugRun) "USA" "Corn" (-50)%float 1
                {| Binary64.leaf := cropLeaf64 false;
                   Binary64.marketplace := landMarket 0 |} 0%float)
      as [Hreturns _]; [by vm_compute | reflexivity |].
    eexists. split; [exact Hreturns|]. vm_compute. reflexivity.
  - destruct (proj1 (profitRate_never_negative (CC := FixedCarbon)
                       (MK := TableMarket) debugRun) "USA" "Corn" 20%float 1
                {| Binary64.leaf := cropLeaf64 true;
                   Binary64.marketplace := landMarket 7.5 |} 0%float)
      as [Hreturns _]; [by vm_compute | reflexivity |].
    eexists. split; [exact Hreturns|]. vm_compute. reflexivity.
  - eexists. split; [vm_compute; reflexivity|].
    apply (proj2 (proj2 (profitRate_never_negative (CC64 := FixedDensities)
                           (MK64 := PriceList) debugRun))
             (CalcLandAllocation "USA" 200 1) (start cropLeaf noMarkets)).
    + reflexivity.
    + vm_compute. reflexivity.
Defined.

(** C6, the claim as it was stated, refuted: under a parent allocation of
    -200 the leaf with share 0.5 is given the allocation 0, which is not
    the product -100. *)
Lemma calcLandAllocation_negative_parent :
  ∃ s', calcLandAllocation debugRun "USA" (-200) 1 (start cropLeaf noMarkets)
        = Returns tt s'
        ∧ at_period (mShare (leaf s')) 1 = Some 0.5%Q
        ∧ at_period (mLandAllocation (leaf s')) 1 = Some 0%Q
        ∧ ¬ (0 == -200 * 0.5)%Q.
Proof.
  eexists. split; [vm_compute; reflexivity|].
  split; [reflexivity|]. split; [reflexivity|]. by vm_compute.
Qed.

(** C6 on the calibrated leaf under a parent allocation of 240. *)
Lemma calcLandAllocation_share_of_parent_witness :
  ∃ s' allocation,
    calcLandAllocation debugRun "USA" 240 1 (start cropLeaf noMarkets)
    = Returns tt s'
    ∧ at_period (mLandAllocation (leaf s')) 1 = Some allocation
    ∧ mShare (leaf s') = mShare cropLeaf
    ∧ allocation = (240 * 0.5)%Q.
Proof.
  destruct (calcLandAllocation_share_of_parent debugRun "USA" 240 1
              (start cropLeaf noMarkets) 0.5 eq_refl)
    as (s' & allocation & Hreturns & Hstored & Hshare & Hpositive & _).
  - by vm_compute.
  - right. by vm_compute.
  - exists s', allocation. split; [exact Hreturns|]. split; [exact Hstored|].
    split; [exact Hshare|]. apply Hpositive. by vm_compute.
Defined.

(** C7 on the calibrated leaf in period 1, where the inverse is called,
    and in period 2, where the profit rates are 0. *)
Lemma calculateProfitScalers_existing_leaf_witness :
  (∃ s', calculateProfitScalers debugRun "USA" linearChoice 1
           (start cropLeaf noMarkets) = Returns tt s'
         ∧ at_period (mProfitScaler (leaf s')) 1
           = Some (calcShareWeight linearChoice 0.5 12 1)
         ∧ events s' = [EvShareWeight 0.5 12 1])
  ∧ (∃ s', calculateProfitScalers debugRun "USA" linearChoice 2
             (start cropLeaf noMarkets) = Returns tt s'
           ∧ at_period (mProfitScaler (leaf s')) 2 = Some 0%Q
           ∧ events s' = []).
Proof.
  split.
  - destruct (calculateProfitScalers_existing_leaf debugRun "USA" linearChoice 1
                (start cropLeaf noMarkets) 6 12 0.5 eq_refl eq_refl eq_refl eq_refl)
      as (s' & Hreturns & _ & Hweight & _); [by vm_compute|].
    exists s'. split; [exact Hreturns|]. apply Hweight; by vm_compute.
  - destruct (calculateProfitScalers_existing_leaf debugRun "USA" linearChoice 2
                (start cropLeaf noMarkets) 0 0 (-1) eq_refl eq_refl eq_refl eq_refl)
      as (s' & Hreturns & Hzero & _); [by vm_compute|].
    exists s'. split; [exact Hreturns|]. apply Hzero. by left.
Defined.

(** C8 without a CO2_LUC market and with a CO2_LUC price of 0. *)
Lemma getCarbonSubsidy_without_price_witness :
  getCarbonSubsidy debugRun "USA" 3 (start cropLeaf noMarkets)
  = Returns 0%Q (start cropLeaf noMarkets)
  ∧ getCarbonSubsidy debugRun "USA" 3 (start cropLeaf (carbonMarket 0))
    = Returns 0%Q (start cropLeaf (carbonMarket 0)).
Proof.
  split.
  - apply (getCarbonSubsidy_without_price debugRun "USA" 3
             (start cropLeaf noMarkets)).
    left. by vm_compute.
  - apply (getCarbonSubsidy_without_price debugRun "USA" 3
             (start cropLeaf (carbonMarket 0))).
    right. by vm_compute.
Defined.

(** C9 on the calibrated leaf. *)
Lemma trial_evaluation_keeps_calibration_witness :
  (∃ s', finalState (calcLandShares "USA" linearChoice 1
                       (start cropLeaf noMarkets)) = Some s'
         ∧ leaf s' = cropLeaf)
  ∧ (∃ s', finalState (setProfitRate debugRun "USA" "Corn" 20 1
                         (start cropLeaf (carbonMarket 10))) = Some s'
           ∧ mProfitScaler (leaf s') = mProfitScaler cropLeaf)
  ∧ (∃ s', finalState (calcLandAllocation debugRun "USA" 240 1
                         (start cropLeaf noMarkets)) = Some s'
           ∧ mProfitScaler (leaf s') = mProfitScaler cropLeaf)
  ∧ (∃ s', finalState (perform debugRun (CalcLUCEmissions "USA" 3 2020)
                         (start cropLeaf noMarkets)) = Some s'
           ∧ mProfitScaler (leaf s') = mProfitScaler cropLeaf).
Proof.
  pose proof (trial_evaluation_keeps_calibration (CC:=FixedCarbon) (MK:=TableMarket)
                debugRun) as (Hshares & Hprofit & Hallocation & Hother & _).
  repeat split.
  - eexists. split; [vm_compute; reflexivity|].
    apply (Hshares "USA" linearChoice 1 (start cropLeaf noMarkets)).
    vm_compute. reflexivity.
  - eexists. split; [vm_compute; reflexivity|].
    apply (Hprofit "USA" "Corn" 20%Q 1 (start cropLeaf (carbonMarket 10))).
    vm_compute. reflexivity.
  - eexists. split; [vm_compute; reflexivity|].
    apply (Hallocation "USA" 240%Q 1 (start cropLeaf noMarkets)).
    vm_compute. reflexivity.
  - eexists. split; [vm_compute; reflexivity|].
    apply (Hother (CalcLUCEmissions "USA" 3 2020) (start cropLeaf noMarkets)).
    + reflexivity.
    + vm_compute. reflexivity.
Defined.



Tactic Notation "state_cbn" "in" "*" :=
  cbn [leaf marketplace events fst snd negb andb orb
       mName mParent mLandAllocation mReadinLandAllocation mShare mProfitRate
       mProfitScaler mCalibrationProfitRate mCarbonPriceIncreaseRate
       mCarbonContentCalc mMinAboveGroundCDensity mMinBelowGroundCDensity
       mSocialDiscountRate mIsNewTech mGhostShareNumeratorForLeaf
       mNewTechStartYear mIsLandExpansionCost mLandExpansionCostName
       mLastCalcCO2Value mLastCalcExpansionValue
       set_mLandAllocation set_mShare set_mProfitRate set_mProfitScaler
       set_mCalibrationProfitRate set_mCarbonPriceIncreaseRate
       set_mCarbonContentCalc set_mLastCalcCO2Value
       set_mLastCalcExpansionValue finalState] in *.

Tactic Notation "state_cbn" "in" hyp(H) :=
  cbn [leaf marketplace events fst snd negb andb orb
       mName mParent mLandAllocation mReadinLandAllocation mShare mProfitRate
       mProfitScaler mCalibrationProfitRate mCarbonPriceIncreaseRate
       mCarbonContentCalc mMinAboveGroundCDensity mMinBelowGroundCDensity
       mSocialDiscountRate mIsNewTech mGhostShareNumeratorForLeaf
       mNewTechStartYear mIsLandExpansionCost mLandExpansionCostName
       mLastCalcCO2Value mLastCalcExpansionValue
       set_mLandAllocation set_mShare set_mProfitRate set_mProfitScaler
       set_mCalibrationProfitRate set_mCarbonPriceIncreaseRate
       set_mCarbonContentCalc set_mLastCalcCO2Value
       set_mLastCalcExpansionValue finalState] in H.

(** * Further properties of the leaf *)

Section Calibration.

Context {CC MK : Type} `{!ICarbonCalc CC} `{!Marketplace MK}.
Context (scenario : Scenario).

Implicit Types (s : State CC MK) (l : LandLeaf CC) (p q : Z).
Implicit Types (fn : IDiscreteChoice) (c : Call) (cs : list Call).

Lemma Qdiv_unit_interval (a b : Q) :
  (0 < b → 0 <= a → a <= b → 0 <= a / b ∧ a / b <= 1)%Q.
Proof.
  intros Hb Ha Hab. split.
  - apply Qle_shift_div_l; [done|]. by rewrite Qmult_0_l.
  - apply Qle_shift_div_r; [done|]. by rewrite Qmult_1_l.
Qed.

(** X1.  Under a positive parent allocation [setInitShares] sets the share
    of the period to the read-in allocation divided by the parent's, which
    lies between 0 and 1 when the read-in allocation lies between 0 and the
    parent's; it returns that share times the profit rate, changes the
    share of no other period, and asks nothing of the collaborators. *)
Theorem setInitShares_fraction_of_parent region above p s readin profit :
  at_period (mReadinLandAllocation (leaf s)) p = Some readin →
  at_period (mProfitRate (leaf s)) p = Some profit →
  in_range (mShare (leaf s)) p →
  (0 < above)%Q →
  ∃ s',
    setInitShares region above p s = Returns (readin / above * profit)%Q s'
    ∧ at_period (mShare (leaf s')) p = Some (readin / above)%Q
    ∧ (∀ q, q ≠ p →
         at_period (mShare (leaf s')) q = at_period (mShare (leaf s)) q)
    ∧ ((0 <= readin)%Q → (readin <= above)%Q →
       (0 <= readin / above ∧ readin / above <= 1)%Q)
    ∧ events s' = events s ∧ marketplace s' = marketplace s.
Proof.
  intros Hreadin Hprofit Hrange Habove.
  apply Qlt_bool_true in Habove as Htest.
  eexists. split; [exec; reflexivity|]. state_cbn.
  split; [by apply at_period_insert_eq|].
  split; [intros q Hq; unfold in_range in Hrange;
          by rewrite at_period_insert_ne by lia|].
  split; [by apply Qdiv_unit_interval|]. done.
Qed.


(** X4.  [calculateCalibrationProfitRate] stores, for a leaf that is not
    an entrant, what [calcImpliedCost] answers for the share of the period
    and the profit rate of the node above, and changes nothing else: the
    calibration profit rates of the other periods, every other data member
    of the leaf and the marketplace are as they were, and the call of the
    choice function is the only event.  For an entrant it changes nothing
    and does not call the choice function. *)
Theorem calculateCalibrationProfitRate_implied_cost region above fn p s :
  (mIsNewTech (leaf s) = true →
   calculateCalibrationProfitRate region above fn p s = Returns tt s)
  ∧ (mIsNewTech (leaf s) = false →
     ∀ share,
       at_period (mShare (leaf s)) p = Some share →
       in_range (mCalibrationProfitRate (leaf s)) p →
       ∃ s', calculateCalibrationProfitRate region above fn p s = Returns tt s'
         ∧ at_period (mCalibrationProfitRate (leaf s')) p
           = Some (calcImpliedCost fn share above p)
         ∧ (∀ q, q ≠ p →
              at_period (mCalibrationProfitRate (leaf s')) q
              = at_period (mCalibrationProfitRate (leaf s)) q)
         ∧ leaf s'
           = set_mCalibrationProfitRate (mCalibrationProfitRate (leaf s')) (leaf s)
         ∧ marketplace s' = marketplace s
         ∧ events s' = events s ++ [EvImpliedCost share above p]).
Proof.
  split.
  - intros Hnew. unfold_ops. by rewrite Hnew.
  - intros Hold share Hshare Hrange.
    eexists. split; [unfold_ops; rewrite Hold; exec; reflexivity|]. state_cbn.
    split; [by apply at_period_insert_eq|].
    split; [intros q Hq; unfold in_range in Hrange;
            by rewrite at_period_insert_ne by lia|]. done.
Qed.

(** X5.  Calibration reproduces the calibration share: when the choice
    function's [calcUnnormalizedShare] undoes its [calcShareWeight] at the
    leaf's share and profit rate, a leaf that is not an entrant, with
    positive profit rate, calibration profit rate other than 0 and a
    share weight that is not negative, is given by [calcLandShares], once
    [calculateProfitScalers] has run, a weight equal to its share. *)
Theorem calibrated_share_reproduced
    region fn p s calibrationProfit profit share :
  mIsNewTech (leaf s) = false →
  at_period (mCalibrationProfitRate (leaf s)) p = Some calibrationProfit →
  at_period (mProfitRate (leaf s)) p = Some profit →
  at_period (mShare (leaf s)) p = Some share →
  in_range (mProfitScaler (leaf s)) p →
  ¬ (calibrationProfit == 0)%Q → (0 < profit)%Q →
  (0 <= calcShareWeight fn share profit p)%Q →
  (calcUnnormalizedShare fn (calcShareWeight fn share profit p) profit p
   == share)%Q →
  ∃ s' weight,
    (calculateProfitScalers scenario region fn p
     ≫= λ _, calcLandShares region fn p) s = Returns weight s'
    ∧ (weight == share)%Q.
Proof.
  intros Hold Hcal Hprofit Hshare Hrange Hcal0 Hpos Hweight Hinverse.
  apply Qeq_bool_false in Hcal0.
  assert (Qeq_bool profit 0 = false) as Hprofit0.
  { apply Qeq_bool_false. intros Heq. rewrite Heq in Hpos.
    by apply (Qlt_irrefl 0). }
  apply Qlt_bool_false in Hweight. apply Qle_bool_false in Hpos.
  eexists _, _. split; [exec; reflexivity|]. exact Hinverse.
Qed.

(** X6.  A profit rate floored at 0 silences the calibrated scaler: when
    the raw profit rate less the expansion cost plus the carbon subsidy is
    not positive, [calcLandShares] after [setProfitRate] hands the scaler 0
    and a profit rate equal to 0 to the choice function. *)
Theorem floored_profit_rate_gets_scaler_zero
    region product raw fn p s subsidy :
  in_range (mProfitRate (leaf s)) p →
  getCarbonSubsidy scenario region p s = Returns subsidy s →
  ((if mIsLandExpansionCost (leaf s)
    then raw - getPrice (marketplace s) (mLandExpansionCostName (leaf s))
                 region p true
    else raw) + subsidy <= 0)%Q →
  ∃ s' stored,
    (setProfitRate scenario region product raw p
     ≫= λ _, calcLandShares region fn p) s
    = Returns (calcUnnormalizedShare fn 0 stored p) s'
    ∧ (stored == 0)%Q
    ∧ at_period (mProfitRate (leaf s')) p = Some stored
    ∧ events s' = events s ++ [EvUnnormalizedShare 0 stored p].
Proof.
  intros Hrange Hsubsidy Hle.
  set (adjusted := ((if mIsLandExpansionCost (leaf s) then _ else _) + subsidy)%Q)
    in Hle.
  assert (std_max adjusted 0 == 0)%Q as Hzero.
  { rewrite std_max_Qmax. by apply Q.max_r. }
  assert (Qle_bool (std_max adjusted 0) 0 = true) as Htest.
  { apply Qle_bool_iff. rewrite Hzero. apply Qle_refl. }
  exists {| leaf := set_mProfitRate
                      (<[Z.to_nat p := std_max adjusted 0]> (mProfitRate (leaf s)))
                      (leaf s);
            marketplace := marketplace s;
            events := events s ++ [EvUnnormalizedShare 0 (std_max adjusted 0) p] |},
         (std_max adjusted 0).
  split; [|split; [done|split; [by apply at_period_insert_eq|done]]].
  unfold mbind at 1, M_bind at 1.
  rewrite (setProfitRate_stores scenario region product raw p s subsidy Hrange Hsubsidy).
  fold adjusted. exec. reflexivity.
Qed.

(** *** Evaluating again *)

(** The carbon subsidy does not look at the profit rates. *)
Lemma getCarbonSubsidy_ignores_mProfitRate region p s v :
  getCarbonSubsidy scenario region p
    {| leaf := set_mProfitRate v (leaf s); marketplace := marketplace s;
       events := events s |}
  = match getCarbonSubsidy scenario region p s with
    | Returns subsidy _ =>
        Returns subsidy
          {| leaf := set_mProfitRate v (leaf s); marketplace := marketplace s;
             events := events s |}
    | Exits code _ =>
        Exits code
          {| leaf := set_mProfitRate v (leaf s); marketplace := marketplace s;
             events := events s |}
    | AssertFails _ =>
        AssertFails
          {| leaf := set_mProfitRate v (leaf s); marketplace := marketplace s;
             events := events s |}
    | OutOfBounds => OutOfBounds
    end.
Proof.
  unfold_ops. state_cbn.
  repeat (case_match; state_cbn; simplify_eq); reflexivity.
Qed.

(** X7.  [setProfitRate] can be evaluated again: a second call with the
    same arguments returns and leaves the state the first call left. *)
Theorem setProfitRate_idempotent region product raw p s s' :
  setProfitRate scenario region product raw p s = Returns tt s' →
  setProfitRate scenario region product raw p s' = Returns tt s'.
Proof.
  intros H.
  assert (∃ subsidy, getCarbonSubsidy scenario region p s = Returns subsidy s
                     ∧ in_range (mProfitRate (leaf s)) p) as (subsidy & Hsub & Hrange).
  { unfold setProfitRate, theLeaf, marketGetPrice, mbind, M_bind, mret, M_ret in H.
    pose proof (getCarbonSubsidy_keeps_state scenario region p s) as Hsame.
    destruct (mIsLandExpansionCost (leaf s));
      destruct (getCarbonSubsidy scenario region p s) as [subsidy s1| | |];
      try done; specialize (Hsame s1 eq_refl); subst s1.
    all: exists subsidy; split; [done|].
    all: unfold write in H; destruct (set_period _ _ _) eqn:Hset; [|done].
    all: by apply set_period_Some in Hset as [? _]. }
  rewrite (setProfitRate_stores scenario region product raw p s subsidy Hrange Hsub) in H.
  injection H as <-.
  rewrite (setProfitRate_stores scenario region product raw p _ subsidy).
  - state_cbn. by rewrite list_insert_insert_eq.
  - state_cbn. by rewrite in_range_insert.
  - rewrite getCarbonSubsidy_ignores_mProfitRate. by rewrite Hsub.
Qed.

(** X8.  [initCalc] can be evaluated again: in a period for which it has
    returned, a second call returns and changes nothing. *)
Theorem initCalc_idempotent region p s s' :
  initCalc region p s = Returns tt s' →
  initCalc region p s' = Returns tt s'.
Proof.
  intros H. unfold_ops in H. state_cbn in H.
  repeat (case_match; state_cbn in *; simplify_eq); arrays.
  all: exec.
  all: repeat match goal with
       | H : at_period (<[Z.to_nat ?p := _]> _) ?p = Some _ |- _ =>
           rewrite at_period_insert_eq in H by done; simplify_eq
       end.
  all: try by destruct s.
  all: try match goal with
       | |- context [if Qeq_bool ?x (-1) then _ else _] =>
           destruct (Qeq_bool x (-1)) eqn:?
       end.
  all: state_cbn; repeat (exec_step; state_cbn).
  all: rewrite ?list_insert_insert_eq.
  all: repeat (exec_step; state_cbn); reflexivity.
Qed.

(** *** Forward projection over many periods *)

Lemma initCalc_copies region p s scaler previous :
  1 < p →
  at_period (mProfitScaler (leaf s)) p = Some scaler → (scaler == -1)%Q →
  at_period (mProfitScaler (leaf s)) (p - 1) = Some previous →
  ¬ (previous == -1)%Q →
  in_range (mShare (leaf s)) p →
  ∃ s', initCalc region p s = Returns tt s'
        ∧ mProfitScaler (leaf s')
          = <[Z.to_nat p := previous]> (mProfitScaler (leaf s))
        ∧ length (mShare (leaf s')) = length (mShare (leaf s)).
Proof.
  intros Hp Hscaler Hunset Hprevious Hset Hrange.
  pose proof (at_period_in_range _ _ _ Hscaler) as Hrange'.
  destruct (in_range_at_period _ _ Hrange) as [share Hshare].
  destruct (in_range_at_period (mShare (leaf s)) (p - 1)) as [share' Hshare'];
    [unfold in_range in *; lia|].
  assert ((1 <? p) = true) as H1 by by apply Z.ltb_lt.
  apply Qeq_bool_iff in Hunset. apply Qeq_bool_false in Hset.
  destruct (Qeq_bool share (-1)) eqn:Eshare.
  all: eexists; split; [exec; reflexivity|]; state_cbn.
  all: by rewrite ?length_insert.
Qed.

(** X9.  Forward projection carries the last calibrated scaler to every
    later period: when the scaler of period [from] is set and those of the
    [count] periods after it are the sentinel, [initCalc] called for these
    periods in order returns each time and leaves them all with the scaler
    of [from], the scalers up to [from] being as they were. *)
Theorem initCalcs_carry_scaler_forward region count :
  ∀ from s scaler,
    1 ≤ from →
    at_period (mProfitScaler (leaf s)) from = Some scaler →
    ¬ (scaler == -1)%Q →
    (∀ q, from < q ≤ from + Z.of_nat count →
          ∃ x, at_period (mProfitScaler (leaf s)) q = Some x ∧ (x == -1)%Q) →
    (∀ q, from < q ≤ from + Z.of_nat count → in_range (mShare (leaf s)) q) →
    ∃ s',
      performAll scenario (initCalcs region (from + 1) count) s = Returns tt s'
      ∧ (∀ q, from < q ≤ from + Z.of_nat count →
              at_period (mProfitScaler (leaf s')) q = Some scaler)
      ∧ (∀ q, q ≤ from →
              at_period (mProfitScaler (leaf s')) q
              = at_period (mProfitScaler (leaf s)) q).
Proof.
  induction count as [|count IH]; intros from s scaler Hfrom Hscaler Hset Hunset Hshares.
  - exists s. split; [done|]. split; [intros q ?; lia | done].
  - destruct (Hunset (from + 1)) as (x & Hx & Hx1); [lia|].
    destruct (initCalc_copies region (from + 1) s x scaler) as (s1 & Hs1 & Hv1 & Hlen1);
      [lia | done | done | by replace (from + 1 - 1) with from by lia | done
       | apply Hshares; lia |].
    pose proof (at_period_in_range _ _ _ Hx) as Hrange.
    destruct (IH (from + 1) s1 scaler) as (s' & Hs' & Hlater & Hearlier).
    + lia.
    + rewrite Hv1. by apply at_period_insert_eq.
    + done.
    + intros q Hq. rewrite Hv1. unfold in_range in Hrange.
      rewrite at_period_insert_ne by lia. apply Hunset. lia.
    + intros q Hq. unfold in_range. rewrite Hlen1. apply Hshares. lia.
    + exists s'. split; [|split].
      * cbn [initCalcs performAll perform]. unfold mbind, M_bind.
        by rewrite Hs1.
      * intros q Hq. destruct (decide (q = from + 1)) as [->|Hne].
        -- rewrite Hearlier by lia. rewrite Hv1. by apply at_period_insert_eq.
        -- apply Hlater. lia.
      * intros q Hq. rewrite Hearlier by lia. rewrite Hv1.
        unfold in_range in Hrange. by rewrite at_period_insert_ne by lia.
Qed.

End Calibration.

Section Subsidy.

Context {CC MK : Type} `{!ICarbonCalc CC} `{!Marketplace MK}.
Context (scenario : Scenario).

Implicit Types (s : State CC MK) (l : LandLeaf CC) (p q : Z).





End Subsidy.

Section Coupling.

Context {CC MK : Type} `{!ICarbonCalc CC} `{!Marketplace MK}.
Context (scenario : Scenario).

Implicit Types (s : State CC MK) (l : LandLeaf CC) (p q : Z).
Implicit Types (c : Call) (cs : list Call).

Lemma calcLandAllocation_returns region above p s share :
  at_period (mShare (leaf s)) p = Some share →
  in_range (mLandAllocation (leaf s)) p →
  NDEBUG scenario = true ∨ (0 <= share ∧ share <= 1)%Q →
  let value := allocated above share in
  let l1 :=
    set_mCarbonContentCalc
      (setTotalLandUse (mCarbonContentCalc (leaf s)) value p)
      (set_mLandAllocation (<[Z.to_nat p := value]> (mLandAllocation (leaf s)))
         (leaf s)) in
  calcLandAllocation scenario region above p s =
    Returns tt
      (if mIsLandExpansionCost (leaf s)
       then
         let r := addToDemand (marketplace s) (mLandExpansionCostName (leaf s))
                    region value (mLastCalcExpansionValue (leaf s)) p true in
         {| leaf := set_mLastCalcExpansionValue r.1 l1; marketplace := r.2;
            events := events s ++
              [EvAddToDemand (mLandExpansionCostName (leaf s)) region value
                 (mLastCalcExpansionValue (leaf s)) p true] |}
       else {| leaf := l1; marketplace := marketplace s; events := events s |}).
Proof.
  intros Hshare Hrange Hassert.
  assert (assert scenario
            (share ← read mShare p; mret (Qle_bool 0 share && Qle_bool share 1)) s
          = Returns tt s) as Hpass.
  { destruct Hassert as [Hnd|[H0 H1]]; unfold assert; [by rewrite Hnd|].
    destruct (NDEBUG scenario); [done|]. exec.
    apply Qle_bool_iff in H0, H1. by rewrite H0, H1. }
  unfold calcLandAllocation. unfold mbind at 1, M_bind at 1. rewrite Hpass.
  unfold allocated.
  destruct (Qlt_bool 0 above) eqn:Habove;
    destruct (mIsLandExpansionCost (leaf s)) eqn:Hflag.
  all: exec; reflexivity.
Qed.

(** X13.  The carbon calculator is always told the allocation
    [calcLandAllocation] stores.  A leaf without a land-expansion-cost
    market asks nothing of the marketplace; a leaf with one submits the
    allocation to that market, handing back as previous contribution what
    the marketplace returned to it last, and remembers what is returned
    this time. *)
Theorem calcLandAllocation_coupling region above p s share :
  at_period (mShare (leaf s)) p = Some share →
  in_range (mLandAllocation (leaf s)) p →
  NDEBUG scenario = true ∨ (0 <= share ∧ share <= 1)%Q →
  let value := allocated above share in
  ∃ s', calcLandAllocation scenario region above p s = Returns tt s'
    ∧ mCarbonContentCalc (leaf s')
      = setTotalLandUse (mCarbonContentCalc (leaf s)) value p
    ∧ (mIsLandExpansionCost (leaf s) = false →
       marketplace s' = marketplace s ∧ events s' = events s
       ∧ mLastCalcExpansionValue (leaf s') = mLastCalcExpansionValue (leaf s))
    ∧ (mIsLandExpansionCost (leaf s) = true →
       let r := addToDemand (marketplace s) (mLandExpansionCostName (leaf s))
                  region value (mLastCalcExpansionValue (leaf s)) p true in
       marketplace s' = r.2
       ∧ mLastCalcExpansionValue (leaf s') = r.1
       ∧ events s' =
           events s ++
           [EvAddToDemand (mLandExpansionCostName (leaf s)) region value
              (mLastCalcExpansionValue (leaf s)) p true]).
Proof.
  intros Hshare Hrange Hassert value.
  eexists. split; [by apply calcLandAllocation_returns|].
  destruct (mIsLandExpansionCost (leaf s)); state_cbn; repeat split; done.
Qed.

(** X14.  Evaluating the allocation twice never counts it twice: of two
    successive calls of [calcLandAllocation] on a leaf with a
    land-expansion-cost market, the second hands the marketplace, as
    previous contribution, exactly what the marketplace returned to the
    first. *)
Theorem calcLandAllocation_twice region above above' p s share :
  at_period (mShare (leaf s)) p = Some share →
  in_range (mLandAllocation (leaf s)) p →
  NDEBUG scenario = true ∨ (0 <= share ∧ share <= 1)%Q →
  mIsLandExpansionCost (leaf s) = true →
  let market := mLandExpansionCostName (leaf s) in
  let first := addToDemand (marketplace s) market region
                 (allocated above share) (mLastCalcExpansionValue (leaf s))
                 p true in
  let second := addToDemand first.2 market region
                  (allocated above' share) first.1 p true in
  ∃ s', (calcLandAllocation scenario region above p
         ≫= λ _, calcLandAllocation scenario region above' p) s = Returns tt s'
    ∧ events s' =
        events s ++
        [EvAddToDemand market region (allocated above share)
           (mLastCalcExpansionValue (leaf s)) p true;
         EvAddToDemand market region (allocated above' share) first.1 p true]
    ∧ marketplace s' = second.2
    ∧ mLastCalcExpansionValue (leaf s') = second.1
    ∧ at_period (mLandAllocation (leaf s')) p = Some (allocated above' share).
Proof.
  intros Hshare Hrange Hassert Hflag market first second.
  unfold mbind, M_bind.
  rewrite (calcLandAllocation_returns region above p s share Hshare Hrange Hassert).
  rewrite Hflag. cbv zeta.
  erewrite calcLandAllocation_returns; state_cbn;
    [|exact Hshare | by rewrite in_range_insert | exact Hassert].
  rewrite Hflag. eexists. split; [reflexivity|]. state_cbn.
  rewrite <- app_assoc, list_insert_insert_eq.
  repeat split; try done. by apply at_period_insert_eq.
Qed.

(** X15.  The remembered emission is handed back as well: of two
    successive calls of [calcLUCEmissions] that submit (the horizon not
    being the end year), the second hands the marketplace, as previous
    contribution, what the marketplace returned to the first. *)
Theorem calcLUCEmissions_twice region p endYear p' endYear' s :
  endYear ≠ getEndYear scenario → endYear' ≠ getEndYear scenario →
  let cc1 := calc (mCarbonContentCalc (leaf s)) p endYear in
  let emission1 :=
    getNetLandUseChangeEmission cc1 (getper_to_yr (modeltime scenario) p) in
  let first := addToDemand (marketplace s) "CO2_LUC" region emission1
                 (mLastCalcCO2Value (leaf s)) p false in
  let cc2 := calc cc1 p' endYear' in
  let emission2 :=
    getNetLandUseChangeEmission cc2 (getper_to_yr (modeltime scenario) p') in
  let second := addToDemand first.2 "CO2_LUC" region emission2 first.1 p' false in
  ∃ s', (calcLUCEmissions scenario region p endYear
         ≫= λ _, calcLUCEmissions scenario region p' endYear') s = Returns tt s'
    ∧ events s' =
        events s ++
        [EvAddToDemand "CO2_LUC" region emission1 (mLastCalcCO2Value (leaf s))
           p false;
         EvAddToDemand "CO2_LUC" region emission2 first.1 p' false]
    ∧ marketplace s' = second.2
    ∧ mLastCalcCO2Value (leaf s') = second.1
    ∧ mCarbonContentCalc (leaf s') = cc2.
Proof.
  intros Hyear Hyear'. cbv zeta.
  apply Z.eqb_neq in Hyear, Hyear'.
  eexists. split; [exec; rewrite Hyear, Hyear'; reflexivity|]. state_cbn.
  by rewrite <- app_assoc.
Qed.

End Coupling.

Section RunInvariants.

Context {CC MK : Type} `{!ICarbonCalc CC} `{!Marketplace MK}.
Context (scenario : Scenario).

Implicit Types (s : State CC MK) (l : LandLeaf CC) (p q : Z).
Implicit Types (c : Call) (cs : list Call).

Lemma perform_keeps_configuration c :
  keeps (sameField configuration) (perform scenario c).
Proof. destruct c; cbn [perform]; frame. Qed.

(** X16.  What is read in or configured for a leaf is never computed: no
    sequence of calls changes its name, its parent, its read-in land
    allocation, its minimum carbon densities, its social discount rate,
    its entrant flag, ghost share and start year, or its
    land-expansion-cost market. *)
Theorem configuration_is_never_written cs s s' :
  finalState (performAll scenario cs s) = Some s' →
  configuration (leaf s') = configuration (leaf s).
Proof.
  intros H.
  apply (performAll_invariant scenario
           (λ s0, configuration (leaf s0) = configuration (leaf s)))
    with (s := s) (cs := cs); [|done|done].
  intros c s0 s0' Hs0 Hc. apply (perform_keeps_configuration c) in Hc.
  unfold sameField in Hc. congruence.
Qed.

(** An assignment to a slot of a per-period array keeps [R] when [R] does
    not tell the array from the array with one slot replaced. *)
Lemma keeps_write_slot R `{!PreOrder R} v set_v p x :
  (∀ s, in_range (v (leaf s)) p →
        R s {| leaf := set_v (<[Z.to_nat p := x]> (v (leaf s))) (leaf s);
               marketplace := marketplace s; events := events s |}) →
  keeps R (write v set_v p x : M CC MK _).
Proof.
  intros Hset s s'. unfold write.
  destruct (set_period _ _ _) eqn:Hv; [|done].
  apply set_period_Some in Hv as [Hrange ->]. intros [= <-]. by apply Hset.
Qed.

Lemma perform_keeps_sizes c :
  keeps (sameField sizes) (perform scenario c).
Proof.
  destruct c; cbn [perform]; unfold_calls.
  all: repeat first
    [ frame_with @keeps_mret | frame_with @keeps_theLeaf
    | frame_with @keeps_read | frame_with @keeps_exit
    | frame_with @keeps_marketGetPrice
    | frame_change @keeps_emit | frame_change @keeps_marketAddToDemand
    | frame_change @keeps_modifyLeaf
    | frame_with @keeps_write_slot;
      intros; unfold sameField, sizes; state_cbn;
      by rewrite length_insert
    | frame_with @keeps_assert
    | frame_with @keeps_bind; [|intros ?]
    | match goal with
      | |- keeps _ (if ?b then _ else _) => destruct b
      | |- keeps _ (match ?x with _ => _ end) => destruct x
      | |- keeps _ (let _ := _ in _) => cbv zeta
      end ].
Qed.

(** X17.  The per-period arrays keep the size they were given: no sequence
    of calls makes any of them longer or shorter. *)
Theorem sizes_are_never_changed cs s s' :
  finalState (performAll scenario cs s) = Some s' →
  sizes (leaf s') = sizes (leaf s).
Proof.
  intros H.
  apply (performAll_invariant scenario (λ s0, sizes (leaf s0) = sizes (leaf s)))
    with (s := s) (cs := cs); [|done|done].
  intros c s0 s0' Hs0 Hc. apply (perform_keeps_sizes c) in Hc.
  unfold sameField in Hc. congruence.
Qed.

Lemma perform_keeps_mLandAllocation c :
  writesLandAllocation c = false →
  keeps (sameField mLandAllocation) (perform scenario c).
Proof. destruct c; try discriminate; intros _; cbn [perform]; frame. Qed.

Lemma calcLandAllocation_nonnegLandAllocation region above p s s' :
  NDEBUG scenario = false →
  nonnegLandAllocation (leaf s) →
  finalState (calcLandAllocation scenario region above p s) = Some s' →
  nonnegLandAllocation (leaf s').
Proof.
  intros Hchecked Hinv H.
  unfold calcLandAllocation, assert in H. rewrite Hchecked in H.
  unfold_ops in H. state_cbn in H.
  repeat (case_match; state_cbn in *; simplify_eq); arrays; try done.
  all: reflect_tests.
  all: intros q x; state_cbn; destruct (decide (p = q)) as [<-|Hne].
  all: try (rewrite at_period_insert_eq by done; intros [= <-]).
  all: try (rewrite at_period_insert_ne by lia; apply Hinv).
  all: try apply Qle_refl.
  all: match goal with
       | H : (_ && _) = true |- _ => apply andb_true_iff in H as [? ?]
       end.
  all: reflect_tests; apply Qmult_le_0_compat; [by apply Qlt_le_weak | done].
Qed.

(** X18.  In a build that checks assertions no land allocation ever
    becomes negative: along every sequence of calls, started where none
    is, none is. *)
Theorem landAllocation_never_negative cs s s' :
  NDEBUG scenario = false →
  nonnegLandAllocation (leaf s) →
  finalState (performAll scenario cs s) = Some s' →
  nonnegLandAllocation (leaf s').
Proof.
  intros Hchecked.
  apply (performAll_invariant scenario (λ s0, nonnegLandAllocation (leaf s0))).
  clear s s'. intros c s s' Hinv H.
  destruct (writesLandAllocation c) eqn:Hc.
  - destruct c; try discriminate. cbn [perform] in H.
    by eapply calcLandAllocation_nonnegLandAllocation.
  - apply (perform_keeps_mLandAllocation c Hc) in H.
    unfold sameField, nonnegLandAllocation in *. by rewrite H.
Qed.

Lemma getLandAllocation_answers product p s x :
  at_period (mLandAllocation (leaf s)) p = Some x →
  (product = mName (leaf s) ∨ product = "" →
   getLandAllocation scenario product p s = Returns x s)
  ∧ (product ≠ mName (leaf s) → product ≠ "" →
     getLandAllocation scenario product p s
     = if NDEBUG scenario then Returns x s else AssertFails s).
Proof.
  intros Hx. unfold getLandAllocation, assert.
  destruct (NDEBUG scenario); unfold_ops; cbn beta.
  - rewrite Hx. by split.
  - split.
    + intros [Hname|Hempty].
      * rewrite (bool_decide_eq_true_2 _ Hname). cbn. by rewrite Hx.
      * rewrite (bool_decide_eq_true_2 _ Hempty), orb_true_r. by rewrite Hx.
    + intros Hname Hempty.
      by rewrite (bool_decide_eq_false_2 _ Hname), (bool_decide_eq_false_2 _ Hempty).
Qed.

(** X19.  [getLandAllocation] answers the allocation [calcLandAllocation]
    stored, in every build, to the leaf's own product name and to the
    empty name.  To any other name a build that checks assertions stops at
    the assertion, and a build that does not answers the stored allocation
    all the same. *)
Theorem getLandAllocation_after_calcLandAllocation
    region above product p s share :
  at_period (mShare (leaf s)) p = Some share →
  in_range (mLandAllocation (leaf s)) p →
  NDEBUG scenario = true ∨ (0 <= share ∧ share <= 1)%Q →
  ∃ s', calcLandAllocation scenario region above p s = Returns tt s'
    ∧ (product = mName (leaf s) ∨ product = "" →
       getLandAllocation scenario product p s'
       = Returns (allocated above share) s')
    ∧ (product ≠ mName (leaf s) → product ≠ "" →
       getLandAllocation scenario product p s'
       = if NDEBUG scenario then Returns (allocated above share) s'
         else AssertFails s').
Proof.
  intros Hshare Hrange Hunit.
  rewrite (calcLandAllocation_returns scenario region above p s share)
    by eauto.
  destruct (mIsLandExpansionCost (leaf s)).
  all: eexists; split; [reflexivity|].
  all: cbv zeta;
       match goal with
       | |- context [getLandAllocation _ _ _ ?s1] =>
           change (mName (leaf s)) with (mName (leaf s1));
           apply (getLandAllocation_answers product p s1)
       end.
  all: state_cbn; by apply at_period_insert_eq.
Qed.

End RunInvariants.

(** * Initialisation *)

Section InitProperties.

Context {CC LUH : Type} `{!ICarbonCalcInit CC LUH}.
Context (scenario : Scenario).

Implicit Types (parsed : ParsedLeaf CC LUH) (v : list Q) (periods : list Z).

Lemma checkLandAllocation_returns region name v periods :
  checkLandAllocation region name v periods = Returns tt []
  ↔ allocationsRead v periods.
Proof.
  unfold allocationsRead. induction periods as [|period later IH]; cbn.
  - split; [|done]. intros _ q Hq. by apply elem_of_nil in Hq.
  - destruct (at_period v period) as [x|] eqn:Hx.
    + destruct (Qlt_bool x 0) eqn:Hneg.
      * split; [done|]. intros Hall.
        destruct (Hall period) as (y & Hy & Hy0); [left|].
        apply Qlt_bool_true in Hneg. rewrite Hx in Hy. injection Hy as <-.
        by destruct (Qlt_not_le _ _ Hneg).
      * rewrite IH. apply Qlt_bool_false in Hneg. split.
        -- intros Hall q [->|Hq]%elem_of_cons; [eauto | by apply Hall].
        -- intros Hall q Hq. apply Hall. by right.
    + split; [done|]. intros Hall.
      destruct (Hall period) as (y & Hy & _); [left|]. by rewrite Hx in Hy.
Qed.

Lemma checkLandAllocation_first_negative region name v before period later x :
  allocationsRead v before →
  at_period v period = Some x → (x < 0)%Q →
  checkLandAllocation region name v (before ++ period :: later)
  = Exits (-1)
      [InitLog ERROR
         [Text "Negative land allocation of "; Value x;
          Text " read in for leaf "; Text name; Text " in ";
          Text region; Text "."]].
Proof.
  unfold allocationsRead. intros Hbefore Hx Hneg. apply Qlt_bool_true in Hneg.
  induction before as [|q before IH]; cbn.
  - by rewrite Hx, Hneg.
  - destruct (Hbefore q) as (y & Hy & Hy0); [left|].
    rewrite Hy. apply Qlt_bool_false in Hy0. rewrite Hy0.
    apply IH. intros q' Hq'. apply Hbefore. by right.
Qed.

(** X20.  A negative land allocation read in for a period of the model is
    fatal: whatever else was read in, [completeInit] logs an error naming
    the first such allocation, the leaf and the region, and exits with -1;
    the error is the only entry the leaf logs, and it does not add the
    dependency on its land-expansion-cost market. *)
Theorem completeInit_negative_allocation_is_fatal
    region info parsed period x :
  0 ≤ period < getmaxper (modeltime scenario) →
  (∀ q, 0 ≤ q < period →
        ∃ y, at_period (mLandAllocation (members parsed)) q = Some y
             ∧ (0 <= y)%Q) →
  at_period (mLandAllocation (members parsed)) period = Some x →
  (x < 0)%Q →
  completeInit scenario region info parsed
  = Exits (-1)
      [InitLog ERROR
         [Text "Negative land allocation of "; Value x;
          Text " read in for leaf "; Text (mName (members parsed));
          Text " in "; Text region; Text "."]].
Proof.
  intros Hperiod Hbefore Hx Hneg. unfold completeInit. cbv zeta.
  replace (getmaxper (modeltime scenario))
    with (period + (1 + (getmaxper (modeltime scenario) - period - 1))) by lia.
  rewrite seqZ_app by lia. rewrite (seqZ_cons (0 + period)) by lia.
  rewrite Z.add_0_l.
  erewrite checkLandAllocation_first_negative; [done| |done|done].
  intros q Hq%elem_of_seqZ. apply Hbefore. lia.
Qed.

(** X21.  A leaf without a land-use history is fatal: when no land
    allocation of a period of the model is negative, [completeInit] logs
    that no history was read in and exits with -1. *)
Theorem completeInit_missing_history_is_fatal region info parsed :
  (∀ q, 0 ≤ q < getmaxper (modeltime scenario) →
        ∃ y, at_period (mLandAllocation (members parsed)) q = Some y
             ∧ (0 <= y)%Q) →
  mLandUseHistory parsed = None →
  completeInit scenario region info parsed
  = Exits (-1)
      [InitLog ERROR
         [Text "No land use history read in for leaf ";
          Text (mName (members parsed)); Text " in region "; Text region]].
Proof.
  intros Hall Hnone. unfold completeInit. cbv zeta.
  assert (checkLandAllocation region (mName (members parsed))
            (mLandAllocation (members parsed))
            (seqZ 0 (getmaxper (modeltime scenario))) = Returns tt []) as ->.
  { apply checkLandAllocation_returns. intros q Hq%elem_of_seqZ.
    apply Hall. lia. }
  by rewrite Hnone.
Qed.

(** X22.  [completeInit] returns exactly when every period of the model
    has a land allocation read in that is not negative (0 is allowed) and
    the leaf has a land-use history.  The leaf it returns has the arrays
    that were read in, the region's social discount rate, and the
    calculator that was read in, or the default one when none was, once
    initialised with the region's private discount rate for land and the
    history; the dependency on the land-expansion-cost market is added for
    a leaf with such a market and for no other. *)
Theorem completeInit_returns region info parsed :
  ((∃ l evs, completeInit scenario region info parsed = Returns l evs)
   ↔ (∀ q, 0 ≤ q < getmaxper (modeltime scenario) →
           ∃ y, at_period (mLandAllocation (members parsed)) q = Some y
                ∧ (0 <= y)%Q)
     ∧ is_Some (mLandUseHistory parsed))
  ∧ (∀ l evs,
       completeInit scenario region info parsed = Returns l evs →
       mLandAllocation l = mLandAllocation (members parsed)
       ∧ mReadinLandAllocation l = mReadinLandAllocation (members parsed)
       ∧ mSocialDiscountRate l = getDouble info "social-discount-rate" true
       ∧ (∃ history,
            mLandUseHistory parsed = Some history ∧
            mCarbonContentCalc l
            = carbonInitLandUseHistory
                (carbonCompleteInit
                   (default newLandCarbonDensities
                      (mCarbonContentCalc (members parsed)))
                   (getDouble info "private-discount-rate-land" true))
                history)
       ∧ evs = if mIsLandExpansionCost (members parsed)
               then [AddDependency "land-allocator" region
                       (mLandExpansionCostName (members parsed)) region]
               else []).
Proof.
  unfold completeInit. cbv zeta.
  pose proof (checkLandAllocation_returns region (mName (members parsed))
                (mLandAllocation (members parsed))
                (seqZ 0 (getmaxper (modeltime scenario)))) as Hcheck.
  destruct (checkLandAllocation _ _ _ _) as [[] evs0| | |] eqn:Hloop.
  - assert (evs0 = []) as ->.
    { clear Hcheck. revert Hloop.
      generalize (seqZ 0 (getmaxper (modeltime scenario))).
      intros periods. induction periods as [|period later IH]; cbn.
      - by intros [= <-].
      - destruct (at_period _ period); [|done]. by destruct (Qlt_bool _ 0). }
    destruct Hcheck as [Hcheck _]. specialize (Hcheck eq_refl).
    destruct (mLandUseHistory parsed) as [history|] eqn:Hhistory; cbn.
    + split.
      * split; [|eauto]. intros _. split; [|eauto].
        intros q Hq. apply Hcheck, elem_of_seqZ. lia.
      * intros l evs [= <- <-]. cbn.
        repeat split; eauto.
    + split; [|done]. split; [by intros (l & evs & ?)|].
      by intros [_ [history ?]].
  - split; [|done]. split; [by intros (l & evs & ?)|].
    intros [Hall _]. destruct Hcheck as [_ Hcheck].
    discriminate Hcheck.
    intros q Hq%elem_of_seqZ. apply Hall. lia.
  - split; [|done]. split; [by intros (l & evs & ?)|].
    intros [Hall _]. destruct Hcheck as [_ Hcheck].
    discriminate Hcheck.
    intros q Hq%elem_of_seqZ. apply Hall. lia.
  - split; [|done]. split; [by intros (l & evs & ?)|].
    intros [Hall _]. destruct Hcheck as [_ Hcheck].
    discriminate Hcheck.
    intros q Hq%elem_of_seqZ. apply Hall. lia.
Qed.

End InitProperties.

(** * The ordering of sectors *)

Section OrderingProperties.

Context (binary_search : list string → string → bool).

Implicit Types (a b c : sector).

Lemma String_ltb_irreflexive (x : string) : String.ltb x x = false.
Proof.
  unfold String.ltb. pose proof (String.compare_antisym x x) as Hxx.
  by destruct (String.compare x x).
Qed.

Lemma String_ltb_asymmetric (x y : string) :
  String.ltb x y = true → String.ltb y x = false.
Proof.
  unfold String.ltb. rewrite (String.compare_antisym x y).
  by destruct (String.compare y x).
Qed.

(** X23.  [DependencyOrdering] places a sector before another only if its
    name is alphabetically smaller; so it never places a sector before
    itself, nor each of two sectors before the other, whatever the
    searches answer. *)
Theorem DependencyOrdering_is_strict a b :
  (DependencyOrdering binary_search a b = true →
   String.ltb (getName a) (getName b) = true)
  ∧ DependencyOrdering binary_search a a = false
  ∧ (DependencyOrdering binary_search a b = true →
     DependencyOrdering binary_search b a = false).
Proof.
  assert (∀ x y, DependencyOrdering binary_search x y = true →
                 String.ltb (getName x) (getName y) = true) as Hname.
  { intros x y. unfold DependencyOrdering.
    destruct (binary_search (getSimulList x) (getName y)); [done|].
    by destruct (binary_search (getInputList x) (getName y)). }
  split; [apply Hname|]. split.
  - destruct (DependencyOrdering binary_search a a) eqn:Haa; [|done].
    apply Hname in Haa. by rewrite String_ltb_irreflexive in Haa.
  - intros Hab%Hname%String_ltb_asymmetric.
    destruct (DependencyOrdering binary_search b a) eqn:Hba; [|done].
    apply Hname in Hba. by rewrite Hba in Hab.
Qed.


(** X25.  [DependencyOrdering] is not transitive: of three sectors named
    in alphabetical order, none with a simultaneity, the first using the
    third as an input and the second not, the first is placed before the
    second and the second, when it does not use the third, before the
    third, but the first is not placed before the third. *)
Theorem DependencyOrdering_not_transitive a b c :
  String.ltb (getName a) (getName b) = true →
  String.ltb (getName b) (getName c) = true →
  binary_search (getSimulList a) (getName b) = false →
  binary_search (getInputList a) (getName b) = false →
  binary_search (getSimulList a) (getName c) = false →
  binary_search (getInputList a) (getName c) = true →
  binary_search (getSimulList b) (getName c) = false →
  binary_search (getInputList b) (getName c) = false →
  DependencyOrdering binary_search a b = true
  ∧ DependencyOrdering binary_search b c = true
  ∧ DependencyOrdering binary_search a c = false.
Proof.
  intros Hab Hbc Hs1 Hi1 Hs2 Hi2 Hs3 Hi3. unfold DependencyOrdering.
  by rewrite Hs1, Hi1, Hs2, Hi2, Hs3, Hi3, Hab, Hbc.
Qed.

End OrderingProperties.

(** * The further properties on concrete leaves and sectors *)

Lemma nonnegLandAllocation_Forall {CC} (l : LandLeaf CC) :
  Forall (λ x, 0 <= x)%Q (mLandAllocation l) → nonnegLandAllocation l.
Proof.
  intros Hall p x. unfold at_period. destruct (p <? 0); [done|].
  intros Hx. by apply (Forall_lookup_1 _ _ _ _ Hall Hx).
Qed.

Lemma at_period_Forall (P : Q → Prop) (v : list Q) (n : Z) :
  Forall P v → Z.of_nat (length v) = n →
  ∀ q, 0 ≤ q < n → ∃ y, at_period v q = Some y ∧ P y.
Proof.
  intros Hall Hn q Hq. destruct (in_range_at_period v q) as [y Hy];
    [unfold in_range; lia|].
  exists y. split; [done|]. unfold at_period in Hy.
  destruct (q <? 0); [done|]. by apply (Forall_lookup_1 _ _ _ _ Hall Hy).
Qed.

(** X1 on the calibrated leaf under a parent allocation of 200. *)
Lemma setInitShares_fraction_of_parent_witness :
  ∃ s', setInitShares "USA" 200 1 (start cropLeaf noMarkets)
        = Returns (100 / 200 * 12)%Q s'
        ∧ at_period (mShare (leaf s')) 1 = Some (100 / 200)%Q
        ∧ (0 <= 100 / 200 ∧ 100 / 200 <= 1)%Q.
Proof.
  destruct (setInitShares_fraction_of_parent "USA" 200 1
              (start cropLeaf noMarkets) 100 12 eq_refl eq_refl)
    as (s' & Hreturns & Hshare & _ & Hunit & _); [by vm_compute..|].
  exists s'. split; [exact Hreturns|]. split; [exact Hshare|].
  apply Hunit; by vm_compute.
Defined.


(** X4 on the entrant and on the calibrated leaf. *)
Lemma calculateCalibrationProfitRate_implied_cost_witness :
  calculateCalibrationProfitRate "USA" 8 linearChoice 1
    (start (entrantLeaf 0.25) noMarkets)
  = Returns tt (start (entrantLeaf 0.25) noMarkets)
  ∧ ∃ s', calculateCalibrationProfitRate "USA" 8 linearChoice 1
            (start cropLeaf noMarkets) = Returns tt s'
          ∧ at_period (mCalibrationProfitRate (leaf s')) 1
            = Some (calcImpliedCost linearChoice 0.5 8 1)
          ∧ events s' = [EvImpliedCost 0.5 8 1].
Proof.
  split.
  - apply (proj1 (calculateCalibrationProfitRate_implied_cost "USA" 8
                    linearChoice 1 (start (entrantLeaf 0.25) noMarkets))).
    reflexivity.
  - destruct (proj2 (calculateCalibrationProfitRate_implied_cost "USA" 8
                       linearChoice 1 (start cropLeaf noMarkets))
                eq_refl 0.5%Q eq_refl)
      as (s' & Hreturns & Hstored & _ & _ & _ & Hevents); [by vm_compute|].
    by exists s'.
Defined.

(** X5 on the calibrated leaf in period 1. *)
Lemma calibrated_share_reproduced_witness :
  ∃ s' weight,
    (calculateProfitScalers debugRun "USA" linearChoice 1
     ≫= λ _, calcLandShares "USA" linearChoice 1) (start cropLeaf noMarkets)
    = Returns weight s'
    ∧ (weight == 0.5)%Q.
Proof.
  apply (calibrated_share_reproduced debugRun "USA" linearChoice 1
           (start cropLeaf noMarkets) 6 12 0.5 eq_refl eq_refl eq_refl eq_refl);
    by vm_compute.
Defined.

(** X6 on the calibrated leaf given the raw profit rate -50. *)
Lemma floored_profit_rate_gets_scaler_zero_witness :
  ∃ s' stored,
    (setProfitRate debugRun "USA" "Corn" (-50) 1
     ≫= λ _, calcLandShares "USA" linearChoice 1) (start cropLeaf noMarkets)
    = Returns (calcUnnormalizedShare linearChoice 0 stored 1) s'
    ∧ (stored == 0)%Q
    ∧ at_period (mProfitRate (leaf s')) 1 = Some stored
    ∧ events s' = [EvUnnormalizedShare 0 stored 1].
Proof.
  apply (floored_profit_rate_gets_scaler_zero debugRun "USA" "Corn" (-50)
           linearChoice 1 (start cropLeaf noMarkets) 0);
    [by vm_compute | vm_compute; reflexivity | by vm_compute].
Defined.

(** X7 on the calibrated leaf at a carbon price of 10. *)
Lemma setProfitRate_idempotent_witness :
  ∃ s', setProfitRate debugRun "USA" "Corn" 20 1 (start cropLeaf (carbonMarket 10))
        = Returns tt s'
        ∧ setProfitRate debugRun "USA" "Corn" 20 1 s' = Returns tt s'.
Proof.
  eexists. split; [vm_compute; reflexivity|].
  apply (setProfitRate_idempotent debugRun "USA" "Corn" 20 1
           (start cropLeaf (carbonMarket 10))).
  vm_compute. reflexivity.
Defined.

(** X8 on the calibrated leaf in period 2. *)
Lemma initCalc_idempotent_witness :
  ∃ s', initCalc "USA" 2 (start cropLeaf noMarkets) = Returns tt s'
        ∧ initCalc "USA" 2 s' = Returns tt s'.
Proof.
  eexists. split; [vm_compute; reflexivity|].
  apply (initCalc_idempotent "USA" 2 (start cropLeaf noMarkets)).
  vm_compute. reflexivity.
Defined.

(** X9 on the calibrated leaf: the scaler of period 1 is carried to the
    periods 2 to 8. *)
Lemma initCalcs_carry_scaler_forward_witness :
  ∃ s', performAll debugRun (initCalcs "USA" 2 7) (start cropLeaf noMarkets)
        = Returns tt s'
        ∧ at_period (mProfitScaler (leaf s')) 2 = Some 2%Q
        ∧ at_period (mProfitScaler (leaf s')) 8 = Some 2%Q.
Proof.
  destruct (initCalcs_carry_scaler_forward debugRun "USA" 7 1
              (start cropLeaf noMarkets) 2)
    as (s' & Hreturns & Hlater & _).
  - lia.
  - reflexivity.
  - by vm_compute.
  - intros q Hq.
    destruct (at_period_Forall (λ x, x == -1)%Q
                (drop 2 (mProfitScaler cropLeaf)) 7) with (q := q - 2)
      as (x & Hx & Hx1); [repeat constructor; by vm_compute | done | lia |].
    exists x. split; [|done]. unfold at_period in *.
    destruct (Z.ltb_spec (q - 2) 0); [lia|]. destruct (Z.ltb_spec q 0); [lia|].
    rewrite lookup_drop in Hx. by replace (Z.to_nat q) with (2 + Z.to_nat (q - 2))%nat by lia.
  - intros q Hq. unfold in_range. cbn. lia.
  - exists s'. split; [exact Hreturns|]. split; apply Hlater; lia.
Defined.




(** X13 on the leaf with a land-expansion-cost market and on the leaf
    without. *)
Lemma calcLandAllocation_coupling_witness :
  (∃ s', calcLandAllocation debugRun "USA" 240 1 (start constrainedLeaf noMarkets)
         = Returns tt s'
         ∧ landUse (mCarbonContentCalc (leaf s')) = allocated 240 0.5
         ∧ mLastCalcExpansionValue (leaf s') = allocated 240 0.5
         ∧ events s'
           = [EvAddToDemand "CornLand" "USA" (allocated 240 0.5) 0 1 true])
  ∧ (∃ s', calcLandAllocation debugRun "USA" 240 1 (start cropLeaf noMarkets)
           = Returns tt s'
           ∧ marketplace s' = noMarkets ∧ events s' = []).
Proof.
  split.
  - destruct (calcLandAllocation_coupling debugRun "USA" 240 1
                (start constrainedLeaf noMarkets) 0.5 eq_refl)
      as (s' & Hreturns & Hcalc & _ & Hmarket);
      [by vm_compute | right; by vm_compute |].
    destruct (Hmarket eq_refl) as (_ & Hlast & Hevents).
    exists s'. split; [exact Hreturns|]. by rewrite Hcalc.
  - destruct (calcLandAllocation_coupling debugRun "USA" 240 1
                (start cropLeaf noMarkets) 0.5 eq_refl)
      as (s' & Hreturns & _ & Hnone & _);
      [by vm_compute | right; by vm_compute |].
    destruct (Hnone eq_refl) as (Hmarket & Hevents & _).
    by exists s'.
Defined.

(** X14 on the leaf with a land-expansion-cost market, under parent
    allocations of 240 and then 260. *)
Lemma calcLandAllocation_twice_witness :
  ∃ s', (calcLandAllocation debugRun "USA" 240 1
         ≫= λ _, calcLandAllocation debugRun "USA" 260 1)
          (start constrainedLeaf noMarkets) = Returns tt s'
        ∧ events s'
          = [EvAddToDemand "CornLand" "USA" (allocated 240 0.5) 0 1 true;
             EvAddToDemand "CornLand" "USA" (allocated 260 0.5)
               (allocated 240 0.5) 1 true]
        ∧ at_period (mLandAllocation (leaf s')) 1 = Some (allocated 260 0.5).
Proof.
  destruct (calcLandAllocation_twice debugRun "USA" 240 260 1
              (start constrainedLeaf noMarkets) 0.5 eq_refl)
    as (s' & Hreturns & Hevents & _ & _ & Hstored);
    [by vm_compute | right; by vm_compute | reflexivity |].
  by exists s'.
Defined.

(** X15 on the calibrated leaf, evaluated twice in period 3 to the horizon
    2020. *)
Lemma calcLUCEmissions_twice_witness :
  ∃ s', (calcLUCEmissions debugRun "USA" 3 2020
         ≫= λ _, calcLUCEmissions debugRun "USA" 3 2020)
          (start cropLeaf noMarkets) = Returns tt s'
        ∧ events s'
          = [EvAddToDemand "CO2_LUC" "USA" 12 0 3 false;
             EvAddToDemand "CO2_LUC" "USA" 12 12 3 false]
        ∧ demands (marketplace s') "CO2_LUC" 3 == 12.
Proof.
  destruct (calcLUCEmissions_twice debugRun "USA" 3 2020 3 2020
              (start cropLeaf noMarkets))
    as (s' & Hreturns & Hevents & Hmarket & _); [done..|].
  exists s'. split; [exact Hreturns|]. split; [exact Hevents|].
  rewrite Hmarket. by vm_compute.
Defined.

(** X16 and X17 on a run of the calibrated leaf. *)
Lemma configuration_is_never_written_witness :
  ∃ s', finalState
          (performAll debugRun
             [SetInitShares "USA" 200 1;
              CalculateCalibrationProfitRate "USA" 8 linearChoice 1;
              CalculateProfitScalers "USA" linearChoice 1;
              InitCalc "USA" 2; SetProfitRate "USA" "Corn" 20 2;
              CalcLandShares "USA" linearChoice 2;
              CalcLandAllocation "USA" 240 2; CalcLUCEmissions "USA" 2 2005]
             (start cropLeaf (carbonMarket 10))) = Some s'
        ∧ configuration (leaf s') = configuration cropLeaf.
Proof.
  eexists. split; [vm_compute; reflexivity|].
  apply (configuration_is_never_written debugRun
           [SetInitShares "USA" 200 1;
            CalculateCalibrationProfitRate "USA" 8 linearChoice 1;
            CalculateProfitScalers "USA" linearChoice 1;
            InitCalc "USA" 2; SetProfitRate "USA" "Corn" 20 2;
            CalcLandShares "USA" linearChoice 2;
            CalcLandAllocation "USA" 240 2; CalcLUCEmissions "USA" 2 2005]
           (start cropLeaf (carbonMarket 10))).
  vm_compute. reflexivity.
Defined.

Lemma sizes_are_never_changed_witness :
  ∃ s', finalState
          (performAll debugRun
             [SetInitShares "USA" 200 1;
              CalculateProfitScalers "USA" linearChoice 1;
              InitCalc "USA" 2; SetProfitRate "USA" "Corn" 20 2;
              SetCarbonPriceIncreaseRate 0.02 2;
              CalcLandAllocation "USA" 240 2]
             (start cropLeaf (carbonMarket 10))) = Some s'
        ∧ sizes (leaf s') = [9; 9; 9; 9; 9; 9; 9]%nat.
Proof.
  eexists. split; [vm_compute; reflexivity|].
  apply (sizes_are_never_changed debugRun
           [SetInitShares "USA" 200 1;
            CalculateProfitScalers "USA" linearChoice 1;
            InitCalc "USA" 2; SetProfitRate "USA" "Corn" 20 2;
            SetCarbonPriceIncreaseRate 0.02 2;
            CalcLandAllocation "USA" 240 2]
           (start cropLeaf (carbonMarket 10))).
  vm_compute. reflexivity.
Defined.

(** X18 on a run of the calibrated leaf in a checked build. *)
Lemma landAllocation_never_negative_witness :
  ∃ s', finalState
          (performAll debugRun
             [CalcLandAllocation "USA" 240 1; CalcLandAllocation "USA" (-3) 0;
              InitCalc "USA" 2; CalcLandAllocation "USA" 250 2]
             (start cropLeaf noMarkets)) = Some s'
        ∧ nonnegLandAllocation (leaf s').
Proof.
  eexists. split; [vm_compute; reflexivity|].
  apply (landAllocation_never_negative debugRun
           [CalcLandAllocation "USA" 240 1; CalcLandAllocation "USA" (-3) 0;
            InitCalc "USA" 2; CalcLandAllocation "USA" 250 2]
           (start cropLeaf noMarkets)).
  - reflexivity.
  - apply nonnegLandAllocation_Forall. repeat constructor; by vm_compute.
  - vm_compute. reflexivity.
Defined.

(** X19 on the calibrated leaf, asked as "Corn" and as "Wheat", in a
    build that checks assertions and in one that does not. *)
Lemma getLandAllocation_after_calcLandAllocation_witness :
  (∃ s', calcLandAllocation debugRun "USA" 240 1 (start cropLeaf noMarkets)
         = Returns tt s'
         ∧ getLandAllocation debugRun "Corn" 1 s'
           = Returns (allocated 240 0.5) s'
         ∧ getLandAllocation debugRun "Wheat" 1 s' = AssertFails s')
  ∧ (∃ s', calcLandAllocation releaseRun "USA" 240 1 (start cropLeaf noMarkets)
           = Returns tt s'
           ∧ getLandAllocation releaseRun "Corn" 1 s'
             = Returns (allocated 240 0.5) s'
           ∧ getLandAllocation releaseRun "Wheat" 1 s'
             = Returns (allocated 240 0.5) s').
Proof.
  split.
  - destruct (getLandAllocation_after_calcLandAllocation debugRun "USA" 240
                "Corn" 1 (start cropLeaf noMarkets) 0.5 eq_refl)
      as (s' & Hreturns & Hcorn & _); [by vm_compute | right; by vm_compute |].
    destruct (getLandAllocation_after_calcLandAllocation debugRun "USA" 240
                "Wheat" 1 (start cropLeaf noMarkets) 0.5 eq_refl)
      as (s'' & Hreturns' & _ & Hwheat); [by vm_compute | right; by vm_compute |].
    assert (s'' = s') as -> by congruence.
    exists s'. split; [exact Hreturns|]. split; [apply Hcorn; by left|].
    by apply Hwheat.
  - destruct (getLandAllocation_after_calcLandAllocation releaseRun "USA" 240
                "Corn" 1 (start cropLeaf noMarkets) 0.5 eq_refl)
      as (s' & Hreturns & Hcorn & _); [by vm_compute | by left |].
    destruct (getLandAllocation_after_calcLandAllocation releaseRun "USA" 240
                "Wheat" 1 (start cropLeaf noMarkets) 0.5 eq_refl)
      as (s'' & Hreturns' & _ & Hwheat); [by vm_compute | by left |].
    assert (s'' = s') as -> by congruence.
    exists s'. split; [exact Hreturns|]. split; [apply Hcorn; by left|].
    by apply Hwheat.
Defined.

(** X20 on a leaf read in with the land allocation -5 in period 1. *)
Lemma completeInit_negative_allocation_is_fatal_witness :
  completeInit debugRun "USA" usaInfo
    (parsedLeaf [100; -5; 0; -1; 0; 0; 0; 0; 0]%Q (Some 100%Q))
  = Exits (-1)
      [InitLog ERROR
         [Text "Negative land allocation of "; Value (-5);
          Text " read in for leaf "; Text "Corn"; Text " in "; Text "USA";
          Text "."]].
Proof.
  apply (completeInit_negative_allocation_is_fatal debugRun "USA" usaInfo
           (parsedLeaf [100; -5; 0; -1; 0; 0; 0; 0; 0]%Q (Some 100%Q)) 1 (-5)).
  - by vm_compute.
  - intros q Hq. assert (q = 0) as -> by lia. exists 100%Q. by vm_compute.
  - reflexivity.
  - by vm_compute.
Defined.

(** X21 on a leaf read in without a land-use history. *)
Lemma completeInit_missing_history_is_fatal_witness :
  completeInit debugRun "USA" usaInfo
    (parsedLeaf [100; 100; 0; 0; 0; 0; 0; 0; 0]%Q None)
  = Exits (-1)
      [InitLog ERROR
         [Text "No land use history read in for leaf "; Text "Corn";
          Text " in region "; Text "USA"]].
Proof.
  apply (completeInit_missing_history_is_fatal debugRun "USA" usaInfo
           (parsedLeaf [100; 100; 0; 0; 0; 0; 0; 0; 0]%Q None)).
  - apply at_period_Forall; [repeat constructor; by vm_compute | reflexivity].
  - reflexivity.
Defined.

(** X22 on a leaf read in with a history and, in two periods, no land. *)
Lemma completeInit_returns_witness :
  ∃ l evs,
    completeInit debugRun "USA" usaInfo
      (parsedLeaf [100; 100; 0; 0; 50; 50; 50; 50; 50]%Q (Some 100%Q))
    = Returns l evs
    ∧ mLandAllocation l = [100; 100; 0; 0; 50; 50; 50; 50; 50]%Q
    ∧ mSocialDiscountRate l = 0.05%Q
    ∧ landUse (mCarbonContentCalc l) = 100%Q
    ∧ evs = [AddDependency "land-allocator" "USA" "CornLand" "USA"].
Proof.
  destruct (completeInit_returns debugRun "USA" usaInfo
              (parsedLeaf [100; 100; 0; 0; 50; 50; 50; 50; 50]%Q (Some 100%Q)))
    as [[_ Hreturns] Hleaf].
  destruct Hreturns as (l & evs & Hl).
  - split; [|by eexists].
    apply at_period_Forall; [repeat constructor; by vm_compute | reflexivity].
  - destruct (Hleaf l evs Hl)
      as (Hallocation & _ & Hrate & (history & Hhistory & Hcalc) & Hevs).
    exists l, evs. split; [exact Hl|]. split; [exact Hallocation|].
    split; [exact Hrate|]. split; [|exact Hevs].
    rewrite Hcalc. by injection Hhistory as <-.
Defined.

(** X23 on two of three sectors of which the first, biomass, uses the
    last, refining, as an input. *)
Lemma DependencyOrdering_is_strict_witness :
  String.ltb "biomass" "electricity" = true
  ∧ DependencyOrdering searchSorted biomassSector biomassSector = false
  ∧ DependencyOrdering searchSorted electricitySector biomassSector = false.
Proof.
  destruct (DependencyOrdering_is_strict searchSorted biomassSector
              electricitySector) as (Hname & Hirreflexive & Hasymmetric).
  split; [by apply Hname|]. split; [exact Hirreflexive|]. by apply Hasymmetric.
Defined.


(** X25 on the three sectors. *)
Lemma DependencyOrdering_not_transitive_witness :
  DependencyOrdering searchSorted biomassSector electricitySector = true
  ∧ DependencyOrdering searchSorted electricitySector refiningSector = true
  ∧ DependencyOrdering searchSorted biomassSector refiningSector = false.
Proof.
  by apply (DependencyOrdering_not_transitive searchSorted biomassSector
              electricitySector refiningSector).
Defined.
